(** * S3I client: token lifecycle, queue client and drain loop

    A shallow embedding of the Python modules [s3i/auth.py], [s3i/broker.py],
    [s3i/exceptions.py], [s3i/message_models.py], [camera/models.py] and
    [background/fetch_messages.py], followed by theorems about them.

    Conventions of the embedding:
    - Python values that come out of JSON are terms of [json]; Python's
      [None] is [JNull].  JSON numbers are integers (floats are outside
      the model).
    - Points in time ([datetime]) are integers counting seconds; adding a
      [timedelta] is integer addition.
    - A computation that may raise and that reads or writes mutable state
      is a function [S -> Result A * S]: the state after a [Raise] is the
      state at the moment the exception left the function.
    - Calls to the logger do not influence control flow or any state that
      is modelled here, so they are left out. *)

From Stdlib Require Import ZArith String.
From stdpp Require Import base gmap strings list.

Local Set Warnings "-register-all".
Local Open Scope string_scope.
Local Open Scope list_scope.
Local Open Scope Z_scope.

(** ** Python values *)

Inductive json : Type :=
| JNull
| JBool (b : bool)
| JInt (n : Z)
| JStr (s : string)
| JList (xs : list json)
| JDict (kv : gmap string json).

(** [d.get(key)]: the value stored under [key], [None] when there is none. *)
Definition dict_get (d : gmap string json) (key : string) : json :=
  default JNull (d !! key).

(** [v == s] for a string literal [s]. *)
Definition eq_str (v : json) (s : string) : bool :=
  match v with
  | JStr s' => bool_decide (s' = s)
  | _ => false
  end.

(** Truth value of an [Optional[str]]: [None] and [""] are false. *)
Definition truthy (o : option string) : bool :=
  match o with
  | Some s => negb (bool_decide (s = ""))
  | None => false
  end.

(** ** s3i/exceptions.py *)

Module S3IException.

(** The three classes of the module; [AuthenticationException] derives
    from [S3IException] and [InvalidCredentialsException] from
    [AuthenticationException]. *)
Inductive cls : Type :=
| S3IException
| AuthenticationException
| InvalidCredentialsException.

Global Instance cls_eq_dec : EqDecision cls.
Proof. solve_decision. Defined.

Record t : Type := mk {
  klass : cls;
  message : string;
  headers : option (list (string * string));
  body : option json;
  status_code : option Z;
  response : option string;
}.

(** [isinstance(e, c)]. *)
Definition isinstance (e : t) (c : cls) : bool :=
  match c, klass e with
  | S3IException, _ => true
  | AuthenticationException, (AuthenticationException | InvalidCredentialsException) => true
  | InvalidCredentialsException, InvalidCredentialsException => true
  | _, _ => false
  end.

End S3IException.

(** Exceptions that the modelled code can raise.  All of them derive from
    Python's [Exception]. *)
Inductive PyExc : Type :=
| S3IError (e : S3IException.t)
| NotImplementedError (msg : string)
| AttributeError (msg : string)
| KeyError (key : string)
| TypeError (msg : string)
| JSONDecodeError
| ValidationError (msg : string)
| RuntimeError (msg : string)
| TransportError (msg : string)
| ExceptionGroup (msg : string) (excs : list PyExc).

Definition is_exception_group (e : PyExc) : bool :=
  match e with
  | ExceptionGroup _ _ => true
  | _ => false
  end.

(** ** Computations with state and exceptions *)

Inductive Result (A : Type) : Type :=
| Return (a : A)
| Raise (e : PyExc).
Arguments Return {A} a.
Arguments Raise {A} e.

Definition Py (S A : Type) : Type := S -> Result A * S.

Definition ret {S A} (a : A) : Py S A := fun s => (Return a, s).

Definition raise {S A} (e : PyExc) : Py S A := fun s => (Raise e, s).

Definition bind {S A B} (m : Py S A) (k : A -> Py S B) : Py S B :=
  fun s =>
    match m s with
    | (Return a, s') => k a s'
    | (Raise e, s') => (Raise e, s')
    end.

Declare Scope py_scope.
Delimit Scope py_scope with py.
Notation "x <- m ;; k" := (bind m (fun x => k))
  (at level 100, m at next level, right associativity) : py_scope.
Notation "m ;; k" := (bind m (fun _ => k))
  (at level 100, right associativity) : py_scope.
Local Open Scope py_scope.

(** Run [m] on the second component of a pair of states. *)
Definition on_snd {S1 S2 A} (m : Py S2 A) : Py (S1 * S2) A :=
  fun s =>
    let '(r, s2) := m (snd s) in (r, (fst s, s2)).

(** Run [m] on the first component, seen through [get]/[set], together
    with the shared second component. *)
Definition zoom {S T W A} (get : S -> T) (set : T -> S -> S)
    (m : Py (T * W) A) : Py (S * W) A :=
  fun s =>
    let '(r, (t, w)) := m (get (fst s), snd s) in (r, (set t (fst s), w)).

(** ** The outside world: clock and HTTP transport

    [httpx] and the clock are not part of the repository.  The world holds
    what the network is going to answer, in order, every request that was
    handed to a transport, how often [close()] was called on each
    [httpx.Client] created so far, and the successive readings of
    [datetime.now()]. *)

Inductive http_method : Type := GET | POST.

Inductive http_body : Type :=
| NoBody
| FormData (data : gmap string json)
| JsonBody (msg : json).

Module Request.
Record t : Type := mk {
  client : nat;
  method : http_method;
  url : string;
  headers : gmap string string;
  body : http_body;
}.
End Request.

Module Response.
Record t : Type := mk {
  status_code : Z;
  text : string;
  headers : list (string * string);
}.
End Response.

Inductive Reply : Type :=
| Answer (r : Response.t)
| NetworkFailure (msg : string).

Module World.
Record t : Type := mk {
  net : list Reply;
  sent : list Request.t;
  clients : list nat;
  clock : nat -> Z;
  ticks : nat;
}.
End World.

(** [datetime.now()]: each reading consumes one tick of the clock. *)
Definition datetime_now : Py World.t Z :=
  fun w =>
    (Return (World.clock w (World.ticks w)),
     World.mk (World.net w) (World.sent w) (World.clients w)
              (World.clock w) (S (World.ticks w))).

(** [httpx.Client()]: a new transport; its handle is its index. *)
Definition httpx_Client : Py World.t nat :=
  fun w =>
    (Return (length (World.clients w)),
     World.mk (World.net w) (World.sent w) (World.clients w ++ [0%nat])
              (World.clock w) (World.ticks w)).

(** [client.close()]. *)
Definition httpx_close (h : nat) : Py World.t unit :=
  fun w =>
    (Return tt,
     World.mk (World.net w) (World.sent w) (alter S h (World.clients w))
              (World.clock w) (World.ticks w)).

(** How often [close()] has been called on transport [h]. *)
Definition close_calls (w : World.t) (h : nat) : nat :=
  default 0%nat (World.clients w !! h).

(** [client.post(...)] and [client.get(...)].  A transport that was closed
    (or a handle that [httpx_Client] never returned) refuses the request;
    otherwise the request is recorded and the next reply of the network is
    consumed.  A network with nothing left to say is unreachable. *)
Definition httpx_request (rq : Request.t) : Py World.t Response.t :=
  fun w =>
    match World.clients w !! Request.client rq with
    | Some O =>
        let log := World.sent w ++ [rq] in
        match World.net w with
        | Answer r :: rest =>
            (Return r,
             World.mk rest log (World.clients w) (World.clock w) (World.ticks w))
        | NetworkFailure msg :: rest =>
            (Raise (TransportError msg),
             World.mk rest log (World.clients w) (World.clock w) (World.ticks w))
        | [] =>
            (Raise (TransportError "ConnectError"),
             World.mk [] log (World.clients w) (World.clock w) (World.ticks w))
        end
    | _ =>
        (Raise (RuntimeError "Cannot send a request, as the client has been closed."), w)
    end.

(** Behaviour of the Python runtime and of [httpx] that the code relies on
    but that is defined outside the repository. *)
Class PyRuntime : Type := {
  (** [response.json()] on a body; [None] when the body is not JSON. *)
  json_loads : string -> option json;
  (** [str(v)], as used by an f-string. *)
  format_value : json -> string;
}.

(** The double-quote character, for string constants that contain it. *)
Definition dquote : string := String (Ascii.ascii_of_nat 34) EmptyString.

Definition quoted (s : string) : string := dquote +:+ s +:+ dquote.

(** ** s3i/auth.py *)

Definition DEFAULT_IDP_URL : string :=
  "https://idp.s3i.vswf.dev/auth/realms/KWH/protocol/openid-connect/token".

Module Token.

Record t : Type := mk {
  auth_scheme : json;
  token_content : json;
  expires_at : Z;
  refresh_token : json;
  refresh_expires_at : Z;
}.

(** Property [expired]: [datetime.now() < self.expires_at]. *)
Definition expired (self : t) : Py World.t bool :=
  now <- datetime_now ;;
  ret (now <? expires_at self).

(** Property [refresh_expired]: [datetime.now() < self.refresh_expires_at]. *)
Definition refresh_expired (self : t) : Py World.t bool :=
  now <- datetime_now ;;
  ret (now <? refresh_expires_at self).

Section Formatting.
Context `{PyRuntime}.

(** Property [full_token]: the f-string of scheme, a space and content. *)
Definition full_token (self : t) : string :=
  format_value (auth_scheme self) +:+ " " +:+ format_value (token_content self).

(** Property [header]. *)
Definition header (self : t) : gmap string string :=
  {[ "Authorization" := full_token self ]}.
End Formatting.

End Token.

(** The error body by which the identity provider reports invalid client
    credentials. *)
Definition INVALID_CLIENT_BODY : string :=
  Eval cbv in
    "{" +:+ quoted "error" +:+ ":" +:+ quoted "invalid_client" +:+ ","
    +:+ quoted "error_description" +:+ ":" +:+ quoted "Invalid client credentials"
    +:+ "}".

(** [v.get(key)] on whatever [response.json()] returned. *)
Definition py_get {S} (v : json) (key : string) : Py S json :=
  match v with
  | JDict d => ret (dict_get d key)
  | _ => raise (AttributeError "get")
  end.

(** [v[key]] for a string key. *)
Definition py_getitem {S} (v : json) (key : string) : Py S json :=
  match v with
  | JDict d =>
      match d !! key with
      | Some x => ret x
      | None => raise (KeyError key)
      end
  | _ => raise (TypeError "subscript")
  end.

(** [timedelta(seconds=v)]: a number of seconds; [bool] is a subclass of
    [int], anything else that JSON can hold is rejected. *)
Definition timedelta_seconds {S} (v : json) : Py S Z :=
  match v with
  | JInt n => ret n
  | JBool b => ret (if b then 1 else 0)
  | _ => raise (TypeError "unsupported type for timedelta seconds component")
  end.

Definition opt_str (o : option string) : json :=
  match o with
  | Some s => JStr s
  | None => JNull
  end.

Module Authenticator.

(** The class of an authenticator object, with the attributes that the
    subclass adds. *)
Inductive cls : Type :=
| BaseAuthenticator
| ClientAuthenticator (id secret : string)
| PasswordAuthenticator (id secret : string) (username password : option string).

Record t : Type := mk {
  token : option Token.t;
  idp_url : string;
  client : nat;
  external_client : bool;
  klass : cls;
}.

Definition set_token (tok : option Token.t) (self : t) : t :=
  mk tok (idp_url self) (client self) (external_client self) (klass self).

(** [__init__] of the three classes: the subclasses call
    [super().__init__(client, idp_url)] and store their credentials. *)
Definition __init__ (k : cls) (client : option nat) (idp_url : string)
    : Py World.t t :=
  c <- match client with
       | Some h => ret h
       | None => httpx_Client
       end ;;
  ret (mk None idp_url c (bool_decide (client = None)) k).

(** [__del__]. *)
Definition __del__ (self : t) : Py World.t unit :=
  if negb (external_client self) then httpx_close (client self) else ret tt.

(** [_build_auth_payload], dispatched on the class of [self]. *)
Definition _build_auth_payload {S} (self : t) : Py S (gmap string json) :=
  match klass self with
  | BaseAuthenticator =>
      raise (NotImplementedError "This method should be implemented by subclasses.")
  | ClientAuthenticator id secret =>
      ret (<["grant_type" := JStr "client_credentials"]>
           (<["client_id" := JStr id]>
            (<["client_secret" := JStr secret]> ∅)))
  | PasswordAuthenticator id secret username password =>
      ret (if truthy username && truthy password
           then
             (* [a | b]: the entries of [b] win *)
             (<["username" := opt_str username]>
              (<["password" := opt_str password]> ∅))
             ∪
             (<["grant_type" := JStr "password"]>
              (<["client_id" := JStr id]>
               (<["client_secret" := JStr secret]> ∅)))
           else ∅)
  end.

Definition FORM_HEADERS : gmap string string :=
  {[ "Content-Type" := "application/x-www-form-urlencoded" ]}.

Section Methods.
Context `{PyRuntime}.

(** [response.json()]. *)
Definition response_json (r : Response.t) : Py World.t json :=
  match json_loads (Response.text r) with
  | Some v => ret v
  | None => raise JSONDecodeError
  end.

(** [_get_token_from_idp]. *)
Definition _get_token_from_idp (self : t) : Py World.t Token.t :=
  payload <- _build_auth_payload self ;;
  response <- httpx_request
                (Request.mk (client self) POST (idp_url self) FORM_HEADERS
                            (FormData payload)) ;;
  if Response.status_code response >=? 400 then
    if bool_decide (Response.text response = INVALID_CLIENT_BODY) then
      raise (S3IError (S3IException.mk
               S3IException.InvalidCredentialsException
               "Invalid client credentials."
               None None
               (Some (Response.status_code response))
               (Some (Response.text response))))
    else
      raise (S3IError (S3IException.mk
               S3IException.AuthenticationException
               "Could not obtain token from S³I Identity Provider."
               None None
               (Some (Response.status_code response))
               (Some (Response.text response))))
  else
    resp_json <- response_json response ;;
    scheme <- py_get resp_json "token_type" ;;
    content <- py_get resp_json "access_token" ;;
    now1 <- datetime_now ;;
    expires_in <- py_getitem resp_json "expires_in" ;;
    delta1 <- timedelta_seconds expires_in ;;
    refresh <- py_get resp_json "refresh_token" ;;
    now2 <- datetime_now ;;
    refresh_expires_in <- py_getitem resp_json "refresh_expires_in" ;;
    delta2 <- timedelta_seconds refresh_expires_in ;;
    ret (Token.mk scheme content (now1 + delta1) refresh (now2 + delta2)).

(** [_refresh_token].  The function has no [return] statement: when
    the provider accepts the request, control reaches the end of the
    body and the call evaluates to [None]. *)
Definition _refresh_token (self : t) : Py World.t (option Token.t) :=
  refresh <- match token self with
             | Some tok => ret (Token.refresh_token tok)
             | None => raise (AttributeError "refresh_token")
             end ;;
  let payload : gmap string json :=
    <["grant_type" := JStr "refresh_token"]>
    (<["refresh_token" := refresh]> ∅) in
  response <- httpx_request
                (Request.mk (client self) POST (idp_url self) FORM_HEADERS
                            (FormData payload)) ;;
  if Response.status_code response >=? 400 then
    raise (S3IError (S3IException.mk
             S3IException.AuthenticationException
             "Could not refresh token from S³I Identity Provider."
             None None
             (Some (Response.status_code response))
             (Some (Response.text response))))
  else
    ret None.

Definition get_self {W} : Py (t * W) t := fun s => (Return (fst s), s).

Definition assign_token {W} (tok : option Token.t) : Py (t * W) unit :=
  fun s => (Return tt, (set_token tok (fst s), snd s)).

(** [self.__token and not self.__token.<property>]. *)
Definition token_and_not (prop : Token.t -> Py World.t bool)
    : Py (t * World.t) bool :=
  self <- get_self ;;
  match token self with
  | Some tok => e <- on_snd (prop tok) ;; ret (negb e)
  | None => ret false
  end.

(** [obtain_token]. *)
Definition obtain_token : Py (t * World.t) Token.t :=
  still_valid <- token_and_not Token.expired ;;
  (if still_valid then ret tt
   else
     refreshable <- token_and_not Token.refresh_expired ;;
     self <- get_self ;;
     if refreshable then
       new <- on_snd (_refresh_token self) ;;
       assign_token new
     else
       new <- on_snd (_get_token_from_idp self) ;;
       assign_token (Some new)) ;;
  self <- get_self ;;
  match token self with
  | None =>
      raise (S3IError (S3IException.mk
               S3IException.AuthenticationException
               "Could not obtain token from S³I Identity Provider."
               None None None None))
  | Some tok => ret tok
  end.

End Methods.

End Authenticator.

(** ** s3i/broker.py *)

Definition DEFAULT_BROKER_URL : string := "https://broker.s3i.vswf.dev".

Module Thing.

Record t : Type := mk {
  id : string;
  secret : string;
  message_queue : string;
  event_queue : string;
}.

(** The generated [__init__] followed by [__post_init__]: a queue that
    was not given is derived from the id. *)
Definition new (id secret : string) (message_queue event_queue : option string) : t :=
  mk id secret
     (default ("s3ibs://" +:+ id) message_queue)
     (default ("s3ib://" +:+ id +:+ "/event") event_queue).

End Thing.

Module Broker.

Record t : Type := mk {
  broker_url : string;
  client : nat;
  external_client : bool;
  auth : Authenticator.t;
  message_queue : string;
  event_queue : string;
}.

Definition set_auth (a : Authenticator.t) (self : t) : t :=
  mk (broker_url self) (client self) (external_client self) a
     (message_queue self) (event_queue self).

(** [__init__]: the authenticator is handed the broker's transport. *)
Definition __init__ (self_thing : Thing.t) (client : option nat)
    (broker_url : string) : Py World.t t :=
  c <- match client with
       | Some h => ret h
       | None => httpx_Client
       end ;;
  a <- Authenticator.__init__
         (Authenticator.ClientAuthenticator (Thing.id self_thing) (Thing.secret self_thing))
         (Some c) DEFAULT_IDP_URL ;;
  ret (mk broker_url c (bool_decide (client = None)) a
          (Thing.message_queue self_thing) (Thing.event_queue self_thing)).

(** [__del__]. *)
Definition __del__ (self : t) : Py World.t unit :=
  if negb (external_client self) then httpx_close (client self) else ret tt.

Definition get_self {W} : Py (t * W) t := fun s => (Return (fst s), s).

Section Methods.
Context `{PyRuntime}.

(** [self.auth.obtain_token()]. *)
Definition auth_obtain_token : Py (t * World.t) Token.t :=
  zoom auth set_auth Authenticator.obtain_token.

(** [send]. *)
Definition send (endpoint : string) (message : gmap string json)
    : Py (t * World.t) (Z * string) :=
  token <- auth_obtain_token ;;
  self <- get_self ;;
  (* [{"Content-Type": ...} | token.header]: the entries of the header win *)
  let headers : gmap string string :=
    Token.header token ∪ {[ "Content-Type" := "application/json" ]} in
  let url := broker_url self +:+ "/" +:+ endpoint in
  response <- on_snd (httpx_request
                (Request.mk (client self) POST url headers
                            (JsonBody (JDict message)))) ;;
  if negb (Response.status_code response =? 201) then
    raise (S3IError (S3IException.mk
             S3IException.S3IException
             ("Failed to send message to " +:+ endpoint +:+ ".")
             (Some (Response.headers response))
             (Some (JDict message))
             (Some (Response.status_code response))
             (Some (Response.text response))))
  else
    ret (Response.status_code response, Response.text response).

(** [receive]. *)
Definition receive (event all : bool) : Py (t * World.t) (option (Z * string)) :=
  self <- get_self ;;
  let endpoint := if event then event_queue self else message_queue self in
  token <- auth_obtain_token ;;
  self <- get_self ;;
  let headers := Token.header token in
  let url := broker_url self +:+ "/" +:+ endpoint +:+ (if all then "/all" else "") in
  response <- on_snd (httpx_request
                (Request.mk (client self) GET url headers NoBody)) ;;
  if negb (Response.status_code response =? 200) then
    raise (S3IError (S3IException.mk
             S3IException.S3IException
             ("Failed to get message from " +:+ endpoint +:+ ".")
             (Some (Response.headers response))
             None
             (Some (Response.status_code response))
             (Some (Response.text response))))
  else if bool_decide (Response.text response = "") then
    ret None
  else
    ret (Some (Response.status_code response, Response.text response)).

End Methods.

End Broker.

(** [s3i/__init__.py]: one transport shared by the whole process and the
    broker built on it.  The four secrets come from the hosting runtime. *)
Definition global_broker (s3i_id s3i_secret : string)
    (s3i_message_queue s3i_event_queue : option string) : Py World.t Broker.t :=
  global_client <- httpx_Client ;;
  Broker.__init__
    (Thing.new s3i_id s3i_secret s3i_message_queue s3i_event_queue)
    (Some global_client) DEFAULT_BROKER_URL.

(** ** s3i/message_models.py and camera/models.py *)

Module S3IMessage.

(** The root of an [S3IMessage]: one of the two bodies, told apart by
    [messageType]. *)
Inductive t : Type :=
| GetValueRequestBody (sender identifier : string) (receivers : list string)
    (replyToEndpoint attributePath : string)
| GetValueReplyBody (sender identifier : string) (receivers : list string)
    (replyingToMessage : string) (value : gmap string json).

Definition messageType (m : t) : string :=
  match m with
  | GetValueRequestBody _ _ _ _ _ => "getValueRequest"
  | GetValueReplyBody _ _ _ _ _ => "getValueReply"
  end.

End S3IMessage.

Module ImageValue.
Record t : Type := mk {
  path : string;
  takenAt : Z;
  image : string;
}.
End ImageValue.

(** Validation is done by pydantic, outside the repository: what each
    validator returns or raises on an input. *)
Class Pydantic : Type := {
  S3IMessage_model_validate_json : string -> Result S3IMessage.t;
  ImageValue_model_validate : gmap string json -> Result ImageValue.t;
}.

Definition of_result {S A} (r : Result A) : Py S A := fun s => (r, s).

(** ** background/fetch_messages.py *)

Module fetch_messages.

(** [is_image_message].  Only a reply has a [value]; for a request the
    first operand of [and] is false and the second one is not evaluated. *)
Definition is_image_message (message : S3IMessage.t) : bool :=
  bool_decide (S3IMessage.messageType message = "getValueReply")
  && match message with
     | S3IMessage.GetValueReplyBody _ _ _ _ value =>
         eq_str (dict_get value "type") "b64 jpeg"
     | S3IMessage.GetValueRequestBody _ _ _ _ _ => false
     end.

Definition EXCEPTION_GROUP_MESSAGE : string :=
  "Exceptions occurred while handling messages.".

Section Fetch.
Context `{PyRuntime} `{Pydantic}.

(** [handle_single_message]. *)
Definition handle_single_message {S} (response_text : string) : Py S unit :=
  message <- of_result (S3IMessage_model_validate_json response_text) ;;
  match message with
  | S3IMessage.GetValueReplyBody _ _ _ _ value =>
      if is_image_message message then
        _ <- of_result (ImageValue_model_validate value) ;;
        ret tt
      else ret tt
  | S3IMessage.GetValueRequestBody _ _ _ _ _ => ret tt
  end.

(** The [while] loop of [fetch_s3i_messages], with the list
    [exceptions] as accumulator.  [fuel] bounds the number of
    iterations; [None] means that the bound was reached. *)
Fixpoint drain (fuel : nat) (exceptions : list PyExc) (s : Broker.t * World.t)
    : option (Result (list PyExc) * (Broker.t * World.t)) :=
  match fuel with
  | O => None
  | S fuel' =>
      match Broker.receive false false s with
      | (Raise e, s') => Some (Raise e, s')
      | (Return None, s') => Some (Return exceptions, s')
      | (Return (Some result), s') =>
          match handle_single_message (snd result) s' with
          | (Return _, s'') => drain fuel' exceptions s''
          | (Raise e, s'') => drain fuel' (exceptions ++ [e]) s''
          end
      end
  end.

(** [fetch_s3i_messages]. *)
Definition fetch_s3i_messages (fuel : nat) (s : Broker.t * World.t)
    : option (Result unit * (Broker.t * World.t)) :=
  match drain fuel [] s with
  | None => None
  | Some (Raise e, s') => Some (Raise e, s')
  | Some (Return [], s') => Some (Return tt, s')
  | Some (Return (e :: es), s') =>
      Some (Raise (ExceptionGroup EXCEPTION_GROUP_MESSAGE (e :: es)), s')
  end.

End Fetch.

End fetch_messages.

(** ** Test doubles

    A runtime that understands one token response and formats scalars, a
    validator that knows two messages, and a few worlds to run the code
    in. *)

Module Mock.

(** The body of a successful token response. *)
Definition TOKEN_BODY : string :=
  Eval cbv in
    "{" +:+ quoted "token_type" +:+ ":" +:+ quoted "Bearer" +:+ ","
    +:+ quoted "access_token" +:+ ":" +:+ quoted "abc" +:+ ","
    +:+ quoted "expires_in" +:+ ":300,"
    +:+ quoted "refresh_token" +:+ ":" +:+ quoted "def" +:+ ","
    +:+ quoted "refresh_expires_in" +:+ ":1800}".

Definition TOKEN_JSON : json :=
  JDict (<["token_type" := JStr "Bearer"]>
         (<["access_token" := JStr "abc"]>
          (<["expires_in" := JInt 300]>
           (<["refresh_token" := JStr "def"]>
            (<["refresh_expires_in" := JInt 1800]> ∅))))).

#[global] Instance runtime : PyRuntime := {|
  json_loads s := if bool_decide (s = TOKEN_BODY) then Some TOKEN_JSON else None;
  format_value v :=
    match v with
    | JStr s => s
    | JNull => "None"
    | JBool true => "True"
    | JBool false => "False"
    | _ => "<object>"
    end;
|}.

Definition REQUEST_TEXT : string := "getValueRequest:1".
Definition IMAGE_TEXT : string := "getValueReply:3".
Definition BROKEN_TEXT : string := "{not a message".

Definition IMAGE_VALUE : gmap string json :=
  <["type" := JStr "b64 jpeg"]>
  (<["path" := JStr "/img/1.jpg"]>
   (<["takenAt" := JInt 1700000000]>
    (<["image" := JStr "/9j/4AAQ"]> ∅))).

#[global] Instance pydantic : Pydantic := {|
  S3IMessage_model_validate_json s :=
    if bool_decide (s = REQUEST_TEXT) then
      Return (S3IMessage.GetValueRequestBody "s3i:camera" "s3i:1" ["s3i:dash"]
                "s3ibs://s3i:camera" "image")
    else if bool_decide (s = IMAGE_TEXT) then
      Return (S3IMessage.GetValueReplyBody "s3i:camera" "s3i:3" ["s3i:dash"]
                "s3i:1" IMAGE_VALUE)
    else Raise (ValidationError "S3IMessage");
  ImageValue_model_validate v :=
    match v !! "path", v !! "takenAt", v !! "image" with
    | Some (JStr p), Some (JInt n), Some (JStr i) =>
        if eq_str (dict_get v "type") "b64 jpeg"
        then Return (ImageValue.mk p n i)
        else Raise (ValidationError "ImageValue")
    | _, _, _ => Raise (ValidationError "ImageValue")
    end;
|}.

Definition ok_token : Reply := Answer (Response.mk 200 TOKEN_BODY []).
Definition message (body : string) : Reply := Answer (Response.mk 200 body []).
Definition empty_queue : Reply := Answer (Response.mk 200 "" []).

(** A world with one open transport (handle [0]), the clock standing
    at [now], and the given replies waiting on the network. *)
Definition world (now : Z) (replies : list Reply) : World.t :=
  World.mk replies [] [0%nat] (fun _ => now) 0.

(** A token cached at time 0 by the provider of [TOKEN_BODY]. *)
Definition cached : Token.t :=
  Token.mk (JStr "Bearer") (JStr "old") 300 (JStr "old-refresh") 1800.

(** A client-credentials authenticator on transport [0] holding [tok]. *)
Definition authenticator (tok : option Token.t) : Authenticator.t :=
  Authenticator.mk tok DEFAULT_IDP_URL 0 false
    (Authenticator.ClientAuthenticator "id" "secret").

(** The broker of [global_broker], before its first request. *)
Definition broker : Broker.t :=
  Broker.mk DEFAULT_BROKER_URL 0 false (authenticator None)
    "s3ibs://id" "s3ib://id/event".

(** Three messages wait in the queue and the second one is not a valid
    message; every poll is preceded by a token request. *)
Definition three_messages : Broker.t * World.t :=
  (broker,
   world 0 [ok_token; message REQUEST_TEXT;
            ok_token; message BROKEN_TEXT;
            ok_token; message IMAGE_TEXT;
            ok_token; empty_queue]).

(** The broker fails while the queue is being drained: one broken message
    has been received when it answers 503. *)
Definition outage : Broker.t * World.t :=
  (broker,
   world 0 [ok_token; message BROKEN_TEXT;
            ok_token; Answer (Response.mk 503 "unavailable" [])]).

(** A token whose refresh token runs out before the access token. *)
Definition refresh_due : Token.t :=
  Token.mk (JStr "Bearer") (JStr "old") 1000 (JStr "old-refresh") 200.

End Mock.

(** Number of [GET] requests handed to a transport so far. *)
Definition is_get (rq : Request.t) : bool :=
  match Request.method rq with
  | GET => true
  | POST => false
  end.

Definition gets (w : World.t) : nat := length (filter is_get (World.sent w)).

(** ** Vocabulary of the statements *)

(** Transport [h] exists and [close()] was never called on it. *)
Definition transport_open (w : World.t) (h : nat) : Prop :=
  World.clients w !! h = Some 0%nat.

(** The world after one reading of the clock. *)
Definition ticked (w : World.t) : World.t := snd (datetime_now w).

(** Every run of [m] moves the state along [R] and raises only exceptions
    in [P]. *)
Definition respects {S A} (R : S -> S -> Prop) (P : PyExc -> Prop) (m : Py S A) : Prop :=
  forall s, R s (snd (m s)) /\ forall e, fst (m s) = Raise e -> P e.

(** A relation on worlds, seen on states that carry a world. *)
Definition on_world {A B} (R : World.t -> World.t -> Prop)
    : A * World.t -> B * World.t -> Prop :=
  fun s s' => R (snd s) (snd s').

(** What obtaining a token may do to the world: it never issues a [GET],
    never lengthens what the network has left to say, and leaves the
    transports as they are. *)
Definition auth_frame (w w' : World.t) : Prop :=
  gets w' = gets w /\
  (length (World.net w') <= length (World.net w))%nat /\
  World.clients w' = World.clients w.

Definition not_group (e : PyExc) : Prop := is_exception_group e = false.

(** What [receive] makes of the broker's reply once the token is there. *)
Definition receive_reply (endpoint : string) (response : Response.t)
    : Result (option (Z * string)) :=
  if negb (Response.status_code response =? 200) then
    Raise (S3IError (S3IException.mk
             S3IException.S3IException
             ("Failed to get message from " +:+ endpoint +:+ ".")
             (Some (Response.headers response))
             None
             (Some (Response.status_code response))
             (Some (Response.text response))))
  else if bool_decide (Response.text response = "") then Return None
  else Return (Some (Response.status_code response, Response.text response)).

Section Vocabulary.
Context `{PyRuntime} `{Pydantic}.

(** The request that [receive] sends. *)
Definition receive_request (event all : bool) (b : Broker.t) (token : Token.t)
    : Request.t :=
  Request.mk (Broker.client b) GET
    (Broker.broker_url b +:+ "/"
     +:+ (if event then Broker.event_queue b else Broker.message_queue b)
     +:+ (if all then "/all" else ""))
    (Token.header token) NoBody.

(** [polls s msgs s']: starting in [s], successive calls of
    [broker.receive()] return the items [msgs], one after the other, and
    leave the state [s']. *)
Inductive polls : Broker.t * World.t -> list (Z * string) -> Broker.t * World.t -> Prop :=
| polls_done s : polls s [] s
| polls_next s s1 s' m ms :
    Broker.receive false false s = (Return (Some m), s1) ->
    polls s1 ms s' ->
    polls s (m :: ms) s'.

(** The exception, if any, that handling one received item raises. *)
Definition failure_of (result : Z * string) : option PyExc :=
  match fetch_messages.handle_single_message (snd result) tt with
  | (Raise e, _) => Some e
  | (Return _, _) => None
  end.

(** The failures of a sequence of received items, in the order of the items. *)
Definition failures (msgs : list (Z * string)) : list PyExc :=
  omap failure_of msgs.

End Vocabulary.

(** The payload of the password grant as the specification words it: user
    name and password are included when both are present. *)
Definition password_payload_when_present (id secret : string)
    (username password : option string) : gmap string json :=
  match username, password with
  | Some u, Some p =>
      <["grant_type" := JStr "password"]>
      (<["client_id" := JStr id]>
       (<["client_secret" := JStr secret]>
        (<["username" := JStr u]>
         (<["password" := JStr p]> ∅))))
  | _, _ => ∅
  end.

(** An object of class [PasswordAuthenticator] on transport [0]. *)
Definition password_authenticator (id secret : string)
    (username password : option string) : Authenticator.t :=
  Authenticator.mk None DEFAULT_IDP_URL 0 false
    (Authenticator.PasswordAuthenticator id secret username password).

(** An authenticator is built and finalized. *)
Definition authenticator_lifetime (client : option nat) : Py World.t unit :=
  a <- Authenticator.__init__ (Authenticator.ClientAuthenticator "id" "secret")
         client DEFAULT_IDP_URL ;;
  Authenticator.__del__ a.

(** A broker is built and finalized. *)
Definition broker_lifetime (client : option nat) : Py World.t unit :=
  b <- Broker.__init__ (Thing.new "id" "secret" None None) client DEFAULT_BROKER_URL ;;
  Broker.__del__ b.

(** A broker is built and finalized, and so is the authenticator that only
    the broker refers to. *)
Definition broker_and_authenticator_lifetime (client : option nat) : Py World.t unit :=
  b <- Broker.__init__ (Thing.new "id" "secret" None None) client DEFAULT_BROKER_URL ;;
  Broker.__del__ b ;;
  Authenticator.__del__ (Broker.auth b).

(** The error of [obtain_token] when it is left without a token. *)
Definition NO_TOKEN : PyExc :=
  S3IError (S3IException.mk S3IException.AuthenticationException
              "Could not obtain token from S³I Identity Provider."
              None None None None).

(** ** Vocabulary of the further statements *)

(** Nothing happened to the world but readings of the clock. *)
Definition quiet (w w' : World.t) : Prop :=
  World.net w' = World.net w /\
  World.sent w' = World.sent w /\
  World.clients w' = World.clients w /\
  World.clock w' = World.clock w /\
  (World.ticks w <= World.ticks w')%nat.

(** The request by which an authenticator asks for a grant. *)
Definition grant_request (self : Authenticator.t) (payload : gmap string json)
    : Request.t :=
  Request.mk (Authenticator.client self) POST (Authenticator.idp_url self)
    Authenticator.FORM_HEADERS (FormData payload).

(** [rq] is the request of a grant of [self], with whatever form. *)
Definition is_grant_request (self : Authenticator.t) (rq : Request.t) : Prop :=
  exists payload, rq = grant_request self payload.

(** The form of the refresh grant for a cached token. *)
Definition refresh_payload (tok : Token.t) : gmap string json :=
  <["grant_type" := JStr "refresh_token"]>
  (<["refresh_token" := Token.refresh_token tok]> ∅).

(** Everything of an authenticator but its cached token. *)
Definition same_authenticator_config (a a' : Authenticator.t) : Prop :=
  Authenticator.idp_url a' = Authenticator.idp_url a /\
  Authenticator.client a' = Authenticator.client a /\
  Authenticator.external_client a' = Authenticator.external_client a /\
  Authenticator.klass a' = Authenticator.klass a.

(** Everything of a broker but the cached token of its authenticator. *)
Definition same_broker_config (b b' : Broker.t) : Prop :=
  Broker.broker_url b' = Broker.broker_url b /\
  Broker.client b' = Broker.client b /\
  Broker.external_client b' = Broker.external_client b /\
  Broker.message_queue b' = Broker.message_queue b /\
  Broker.event_queue b' = Broker.event_queue b /\
  same_authenticator_config (Broker.auth b) (Broker.auth b').

Section FurtherVocabulary.
Context `{PyRuntime}.

(** The part of [_get_token_from_idp] that follows the status check: the
    token is read off the body of the answer. *)
Definition token_of_response (response : Response.t) : Py World.t Token.t :=
  resp_json <- Authenticator.response_json response ;;
  scheme <- py_get resp_json "token_type" ;;
  content <- py_get resp_json "access_token" ;;
  now1 <- datetime_now ;;
  expires_in <- py_getitem resp_json "expires_in" ;;
  delta1 <- timedelta_seconds expires_in ;;
  refresh <- py_get resp_json "refresh_token" ;;
  now2 <- datetime_now ;;
  refresh_expires_in <- py_getitem resp_json "refresh_expires_in" ;;
  delta2 <- timedelta_seconds refresh_expires_in ;;
  ret (Token.mk scheme content (now1 + delta1) refresh (now2 + delta2)).

(** The last branch of [obtain_token]: the result of the full grant is
    stored and returned. *)
Definition full_grant_branch (self : Authenticator.t) (w : World.t)
    : Result Token.t * (Authenticator.t * World.t) :=
  match Authenticator._get_token_from_idp self w with
  | (Return new, w') => (Return new, (Authenticator.set_token (Some new) self, w'))
  | (Raise e, w') => (Raise e, (self, w'))
  end.

(** The middle branch of [obtain_token]: the result of the refresh is
    stored, and a stored [None] makes the call fail. *)
Definition refresh_branch (self : Authenticator.t) (w : World.t)
    : Result Token.t * (Authenticator.t * World.t) :=
  match Authenticator._refresh_token self w with
  | (Return (Some new), w') =>
      (Return new, (Authenticator.set_token (Some new) self, w'))
  | (Return None, w') => (Raise NO_TOKEN, (Authenticator.set_token None self, w'))
  | (Raise e, w') => (Raise e, (self, w'))
  end.

End FurtherVocabulary.

(** Between [w] and [w'] at most one request was handed to a transport, a
    request accepted by [ok]; it consumed the next reply of the network.
    No transport was created or closed. *)
Definition at_most_one_request (ok : Request.t -> Prop) (w w' : World.t) : Prop :=
  World.clients w' = World.clients w /\
  World.clock w' = World.clock w /\
  ((World.sent w' = World.sent w /\ World.net w' = World.net w)
   \/ exists rq, ok rq /\ World.sent w' = World.sent w ++ [rq]
                 /\ World.net w' = tail (World.net w)).

(** The world after a request was answered. *)
Definition answered (rq : Request.t) (rest : list Reply) (w : World.t) : World.t :=
  World.mk rest (World.sent w ++ [rq]) (World.clients w) (World.clock w) (World.ticks w).

Section BrokerVocabulary.
Context `{PyRuntime}.

(** The request that [send] sends. *)
Definition send_request (endpoint : string) (message : gmap string json)
    (b : Broker.t) (token : Token.t) : Request.t :=
  Request.mk (Broker.client b) POST (Broker.broker_url b +:+ "/" +:+ endpoint)
    (<["Authorization" := Token.full_token token]>
     (<["Content-Type" := "application/json"]> ∅))
    (JsonBody (JDict message)).

End BrokerVocabulary.

(** The requests that draining the queue of broker [b] may send: a form
    posted to the identity provider on the transport of the broker's
    authenticator, or a [GET] without body on the broker's transport for
    the message queue. *)
Definition drain_request (b : Broker.t) (rq : Request.t) : Prop :=
  (Request.method rq = POST
   /\ Request.url rq = Authenticator.idp_url (Broker.auth b)
   /\ Request.client rq = Authenticator.client (Broker.auth b))
  \/ (Request.method rq = GET
      /\ Request.url rq = Broker.broker_url b +:+ "/" +:+ Broker.message_queue b
      /\ Request.client rq = Broker.client b
      /\ Request.body rq = NoBody).

(** Further test doubles. *)
Module Scenario.

(** The body of a token response that names no lifetimes. *)
Definition SHORT_JSON : gmap string json :=
  <["token_type" := JStr "Bearer"]> (<["access_token" := JStr "abc"]> ∅).

(** A runtime for which every body is that JSON object. *)
Definition short_runtime : PyRuntime := {|
  json_loads _ := Some (JDict SHORT_JSON);
  format_value := @format_value Mock.runtime;
|}.

(** The fields of [Mock.TOKEN_BODY]. *)
Definition TOKEN_FIELDS : gmap string json :=
  <["token_type" := JStr "Bearer"]>
  (<["access_token" := JStr "abc"]>
   (<["expires_in" := JInt 300]>
    (<["refresh_token" := JStr "def"]>
     (<["refresh_expires_in" := JInt 1800]> ∅)))).

(** The form of the client-credentials grant of [Mock.authenticator]. *)
Definition CLIENT_FORM : gmap string json :=
  <["grant_type" := JStr "client_credentials"]>
  (<["client_id" := JStr "id"]>
   (<["client_secret" := JStr "secret"]> ∅)).

(** An object of the base class on transport [0]. *)
Definition base_authenticator : Authenticator.t :=
  Authenticator.mk None DEFAULT_IDP_URL 0 false Authenticator.BaseAuthenticator.

Definition rejected : Reply := Answer (Response.mk 400 "bad request" []).
Definition created : Reply := Answer (Response.mk 201 "" []).
Definition invalid_client : Reply := Answer (Response.mk 401 INVALID_CLIENT_BODY []).

Definition MESSAGE : gmap string json := {[ "messageType" := JStr "getValueRequest" ]}.

Definition fresh_token : Token.t :=
  Token.mk (JStr "Bearer") (JStr "abc") 300 (JStr "def") 1800.

End Scenario.

(** An exception of the module [s3i.exceptions] is one that
    [except AuthenticationException] catches; exceptions from elsewhere
    are not concerned. *)
Definition authentication_if_s3i (e : PyExc) : Prop :=
  match e with
  | S3IError x =>
      S3IException.isinstance x S3IException.AuthenticationException = true
  | _ => True
  end.

(** * Theorems *)

(** ** Sanity of the test doubles *)

(** The hand-written broker of the test doubles is the one that
    [s3i/__init__.py] builds in a world without transports. *)
Lemma global_broker_is_mock_broker :
  global_broker "id" "secret" None None (World.mk [] [] [] (fun _ => 0) 0)
  = (Return Mock.broker, Mock.world 0 []).
Proof. reflexivity. Qed.

Lemma INVALID_CLIENT_BODY_length : String.length INVALID_CLIENT_BODY = 75%nat.
Proof. reflexivity. Qed.

(** ** Reasoning about computations *)

Lemma bind_Return {S A B} (m : Py S A) (k : A -> Py S B) s a s' :
  m s = (Return a, s') -> bind m k s = k a s'.
Proof. intros Hm. unfold bind. now rewrite Hm. Qed.

Lemma bind_Raise {S A B} (m : Py S A) (k : A -> Py S B) s e s' :
  m s = (Raise e, s') -> bind m k s = (Raise e, s').
Proof. intros Hm. unfold bind. now rewrite Hm. Qed.

Lemma on_snd_eq {S1 S2 A} (m : Py S2 A) (a : S1) (w : S2) :
  on_snd m (a, w) = (fst (m w), (a, snd (m w))).
Proof. unfold on_snd. simpl. now destruct (m w). Qed.

Section Frame.
Context {S : Type} (R : S -> S -> Prop) `{!PreOrder R} (P : PyExc -> Prop).

Lemma respects_ret {A} (a : A) : respects R P (ret a).
Proof. intros s. split; [reflexivity | discriminate]. Qed.

Lemma respects_raise {A} e : P e -> respects R P (@raise S A e).
Proof. intros He s. split; [reflexivity | now intros ? [= <-]]. Qed.

Lemma respects_bind {A B} (m : Py S A) (k : A -> Py S B) :
  respects R P m -> (forall a, respects R P (k a)) -> respects R P (bind m k).
Proof.
  intros Hm Hk s. unfold bind.
  destruct (Hm s) as [HR HP]. destruct (m s) as [[a | e] s1]; simpl in *.
  - destruct (Hk a s1) as [HR' HP']. split; [now transitivity s1 | exact HP'].
  - split; [exact HR |]. intros e' [= <-]. now apply HP.
Qed.

End Frame.

Global Instance on_world_preorder {A} R `{!PreOrder R} : PreOrder (@on_world A A R).
Proof.
  split.
  - intros s. unfold on_world. reflexivity.
  - intros s1 s2 s3. unfold on_world. intros H12 H23. now transitivity (snd s2).
Qed.

Lemma respects_on_snd {A X} R P (m : Py World.t X) :
  respects R P m -> respects (@on_world A A R) P (on_snd m).
Proof.
  intros Hm [a w]. rewrite on_snd_eq. unfold on_world. simpl. apply Hm.
Qed.

Lemma respects_zoom {S T X} R P (get : S -> T) (set : T -> S -> S)
    (m : Py (T * World.t) X) :
  respects (@on_world T T R) P m -> respects (@on_world S S R) P (zoom get set m).
Proof.
  intros Hm [a w]. unfold zoom. simpl.
  specialize (Hm (get a, w)). unfold on_world in *. simpl in *.
  destruct (m (get a, w)) as [r [t w']]. simpl in *. exact Hm.
Qed.

Global Instance auth_frame_preorder : PreOrder auth_frame.
Proof.
  split.
  - intros w. unfold auth_frame. auto.
  - intros w1 w2 w3 (Hg & Hn & Hc) (Hg' & Hn' & Hc'). unfold auth_frame.
    repeat split; [congruence | lia | congruence].
Qed.

(** ** Effects of the primitives *)

Lemma datetime_now_frame : respects auth_frame not_group datetime_now.
Proof. intros w. split; [now unfold auth_frame | discriminate]. Qed.

Lemma gets_snoc w rq :
  length (filter is_get (World.sent w ++ [rq])) =
  (gets w + if is_get rq then 1 else 0)%nat.
Proof.
  unfold gets. rewrite filter_app, length_app. f_equal.
  cbn. destruct (is_get rq); reflexivity.
Qed.

Lemma httpx_post_frame h url hd body :
  respects auth_frame not_group (httpx_request (Request.mk h POST url hd body)).
Proof.
  intros w. unfold httpx_request. simpl.
  destruct (World.clients w !! h) as [[|n]|]; simpl;
    try (split; [reflexivity | now intros ? [= <-]]).
  destruct (World.net w) as [|[r|msg] rest] eqn:Hnet; simpl;
    (split; [ unfold auth_frame, gets; simpl; rewrite ?Hnet; simpl;
              rewrite (gets_snoc w); unfold gets; simpl; repeat split; lia
            | try discriminate; now intros ? [= <-] ]).
Qed.

Lemma httpx_request_Return rq w r w' :
  httpx_request rq w = (Return r, w') ->
  transport_open w (Request.client rq) /\
  World.net w = Answer r :: World.net w' /\
  World.sent w' = World.sent w ++ [rq] /\
  World.clients w' = World.clients w.
Proof.
  unfold httpx_request, transport_open.
  destruct (World.clients w !! Request.client rq) as [[|n]|]; try discriminate.
  destruct (World.net w) as [|[r0|msg] rest]; try discriminate.
  intros [= <- <-]. simpl. auto.
Qed.

Lemma httpx_request_Answer rq w r rest :
  transport_open w (Request.client rq) ->
  World.net w = Answer r :: rest ->
  httpx_request rq w =
    (Return r,
     World.mk rest (World.sent w ++ [rq]) (World.clients w) (World.clock w) (World.ticks w)).
Proof.
  unfold transport_open. intros Hc Hn. unfold httpx_request. now rewrite Hc, Hn.
Qed.

Lemma httpx_request_not_group rq w e w' :
  httpx_request rq w = (Raise e, w') -> not_group e.
Proof.
  unfold httpx_request.
  destruct (World.clients w !! Request.client rq) as [[|n]|];
    try (now intros [= <- <-]).
  destruct (World.net w) as [|[r0|msg] rest]; try discriminate; now intros [= <- <-].
Qed.

Ltac frame_ret := apply respects_ret; exact _.
Ltac frame_raise := apply respects_raise; first [exact _ | reflexivity].
Tactic Notation "frame_bind" ident(x) :=
  apply respects_bind; [exact _ | | intros x].

Lemma py_get_frame {S} (R : S -> S -> Prop) `{!PreOrder R} v key :
  respects R not_group (py_get v key).
Proof. destruct v; simpl; try frame_raise; frame_ret. Qed.

Lemma py_getitem_frame {S} (R : S -> S -> Prop) `{!PreOrder R} v key :
  respects R not_group (py_getitem v key).
Proof.
  destruct v; simpl; try frame_raise.
  destruct (kv !! key); [frame_ret | frame_raise].
Qed.

Lemma timedelta_seconds_frame {S} (R : S -> S -> Prop) `{!PreOrder R} v :
  respects R not_group (timedelta_seconds v).
Proof. destruct v; simpl; try frame_raise; frame_ret. Qed.

Lemma build_auth_payload_frame {S} (R : S -> S -> Prop) `{!PreOrder R} self :
  respects R not_group (Authenticator._build_auth_payload self).
Proof.
  unfold Authenticator._build_auth_payload.
  destruct (Authenticator.klass self); [frame_raise | frame_ret | frame_ret].
Qed.

Ltac frame_step :=
  first
    [ frame_ret
    | frame_raise
    | apply datetime_now_frame
    | apply httpx_post_frame
    | apply py_get_frame; exact _
    | apply py_getitem_frame; exact _
    | apply timedelta_seconds_frame; exact _
    | apply build_auth_payload_frame; exact _
    | apply respects_bind; [exact _ | | intros ?] ].

(** ** Obtaining a token *)

Section AuthFrame.
Context `{PyRuntime}.

Lemma response_json_frame r :
  respects auth_frame not_group (Authenticator.response_json r).
Proof.
  unfold Authenticator.response_json.
  destruct (json_loads _); [frame_ret | frame_raise].
Qed.

Lemma get_token_from_idp_frame self :
  respects auth_frame not_group (Authenticator._get_token_from_idp self).
Proof.
  unfold Authenticator._get_token_from_idp.
  do 2 frame_step.
  frame_step.
  destruct (_ >=? _).
  - destruct (bool_decide _); frame_step.
  - frame_step; [apply response_json_frame |].
    repeat frame_step.
Qed.

Lemma refresh_token_frame self :
  respects auth_frame not_group (Authenticator._refresh_token self).
Proof.
  unfold Authenticator._refresh_token.
  frame_step.
  - destruct (Authenticator.token self); frame_step.
  - frame_step. frame_step. destruct (_ >=? _); frame_step.
Qed.

Lemma token_expired_frame tok : respects auth_frame not_group (Token.expired tok).
Proof. unfold Token.expired. repeat frame_step. Qed.

Lemma token_refresh_expired_frame tok :
  respects auth_frame not_group (Token.refresh_expired tok).
Proof. unfold Token.refresh_expired. repeat frame_step. Qed.

Lemma get_self_frame {W} (R : Authenticator.t * W -> Authenticator.t * W -> Prop)
    `{!PreOrder R} P :
  respects R P Authenticator.get_self.
Proof. intros s. split; [reflexivity | discriminate]. Qed.

Lemma assign_token_frame tok :
  respects (on_world auth_frame) not_group
    (Authenticator.assign_token (W:=World.t) tok).
Proof. intros s. split; [unfold on_world; simpl; reflexivity | discriminate]. Qed.

Lemma token_and_not_frame prop :
  (forall tok, respects auth_frame not_group (prop tok)) ->
  respects (on_world auth_frame) not_group (Authenticator.token_and_not prop).
Proof.
  intros Hprop. unfold Authenticator.token_and_not.
  frame_bind self; [apply get_self_frame; exact _ |].
  destruct (Authenticator.token self); [| frame_ret].
  frame_bind e; [now apply respects_on_snd | frame_ret].
Qed.

(** Whatever branch [obtain_token] takes, it sends no [GET], consumes
    replies only from the front of the network, closes no transport, and
    raises no exception group. *)
Lemma obtain_token_frame :
  respects (on_world auth_frame) not_group Authenticator.obtain_token.
Proof.
  unfold Authenticator.obtain_token.
  frame_bind still_valid; [apply token_and_not_frame, token_expired_frame |].
  frame_bind u.
  - destruct still_valid; [frame_ret |].
    frame_bind refreshable; [apply token_and_not_frame, token_refresh_expired_frame |].
    frame_bind self; [apply get_self_frame; exact _ |].
    destruct refreshable.
    + frame_bind new; [apply respects_on_snd, refresh_token_frame | apply assign_token_frame].
    + frame_bind new; [apply respects_on_snd, get_token_from_idp_frame | apply assign_token_frame].
  - frame_bind self; [apply get_self_frame; exact _ |].
    destruct (Authenticator.token self); [frame_ret | frame_raise].
Qed.

Lemma auth_obtain_token_frame :
  respects (on_world auth_frame) not_group Broker.auth_obtain_token.
Proof. apply respects_zoom, obtain_token_frame. Qed.

(** A refresh that the provider accepts evaluates to [None]. *)
Lemma refresh_token_accepted self tok w r rest :
  Authenticator.token self = Some tok ->
  transport_open w (Authenticator.client self) ->
  World.net w = Answer r :: rest ->
  Response.status_code r < 400 ->
  fst (Authenticator._refresh_token self w) = Return None.
Proof.
  intros Htok Hopen Hnet Hstatus. unfold Authenticator._refresh_token.
  rewrite Htok. unfold bind at 1. simpl.
  erewrite bind_Return by (apply httpx_request_Answer; [exact Hopen | exact Hnet]).
  replace (Response.status_code r >=? 400) with false; [reflexivity |].
  symmetry. rewrite Z.geb_leb. apply Z.leb_gt. lia.
Qed.

End AuthFrame.

(** ** The branches of [obtain_token] *)

Section Branches.
Context `{PyRuntime}.

Lemma token_and_not_expired self tok w :
  Authenticator.token self = Some tok ->
  Authenticator.token_and_not Token.expired (self, w) =
    (Return (negb (World.clock w (World.ticks w) <? Token.expires_at tok)),
     (self, ticked w)).
Proof.
  intros Htok. unfold Authenticator.token_and_not.
  erewrite bind_Return by reflexivity. cbv beta. cbn [fst snd]. rewrite Htok.
  erewrite bind_Return by (rewrite on_snd_eq; reflexivity).
  reflexivity.
Qed.

Lemma token_and_not_refresh_expired self tok w :
  Authenticator.token self = Some tok ->
  Authenticator.token_and_not Token.refresh_expired (self, w) =
    (Return (negb (World.clock w (World.ticks w) <? Token.refresh_expires_at tok)),
     (self, ticked w)).
Proof.
  intros Htok. unfold Authenticator.token_and_not.
  erewrite bind_Return by reflexivity. cbv beta. cbn [fst snd]. rewrite Htok.
  erewrite bind_Return by (rewrite on_snd_eq; reflexivity).
  reflexivity.
Qed.

(** A cached token whose access token has run out is returned as it is,
    whatever the state of its refresh token, and nothing is sent. *)
Lemma obtain_token_reuses_expired self tok w :
  Authenticator.token self = Some tok ->
  Token.expires_at tok <= World.clock w (World.ticks w) ->
  Authenticator.obtain_token (self, w) = (Return tok, (self, ticked w)).
Proof.
  intros Htok Hexp. unfold Authenticator.obtain_token.
  erewrite bind_Return by (apply token_and_not_expired, Htok).
  replace (_ <? _) with false by (symmetry; apply Z.ltb_ge; lia).
  simpl negb. cbv iota.
  erewrite bind_Return by reflexivity.
  erewrite bind_Return by reflexivity.
  cbv beta. cbn [fst snd]. now rewrite Htok.
Qed.

(** While neither the access token nor the refresh token of the cached
    token has run out, every call asks the identity provider for a new
    token by a full grant. *)
Lemma obtain_token_requests_before_expiry self tok w :
  Authenticator.token self = Some tok ->
  World.clock w (World.ticks w) < Token.expires_at tok ->
  World.clock w (S (World.ticks w)) < Token.refresh_expires_at tok ->
  Authenticator.obtain_token (self, w) =
    match Authenticator._get_token_from_idp self (ticked (ticked w)) with
    | (Return new, w') => (Return new, (Authenticator.set_token (Some new) self, w'))
    | (Raise e, w') => (Raise e, (self, w'))
    end.
Proof.
  intros Htok Hexp Hrefresh. unfold Authenticator.obtain_token.
  erewrite bind_Return by (apply token_and_not_expired, Htok).
  replace (_ <? _) with true by (symmetry; apply Z.ltb_lt; lia).
  simpl negb. cbv iota.
  unfold bind at 1.
  erewrite bind_Return by (apply token_and_not_refresh_expired, Htok).
  replace (_ <? _) with true by (symmetry; apply Z.ltb_lt; exact Hrefresh).
  simpl negb.
  erewrite bind_Return by reflexivity. cbv iota. cbn [fst snd].
  unfold bind at 1. rewrite on_snd_eq.
  destruct (Authenticator._get_token_from_idp self _) as [[new | e] w']; reflexivity.
Qed.

(** When the refresh branch is taken and the provider accepts the
    request, the call raises and the cache is emptied. *)
Lemma obtain_token_refresh_accepted_raises self tok w r rest :
  Authenticator.token self = Some tok ->
  World.clock w (World.ticks w) < Token.expires_at tok ->
  Token.refresh_expires_at tok <= World.clock w (S (World.ticks w)) ->
  transport_open w (Authenticator.client self) ->
  World.net w = Answer r :: rest ->
  Response.status_code r < 400 ->
  fst (Authenticator.obtain_token (self, w)) = Raise NO_TOKEN
  /\ Authenticator.token (fst (snd (Authenticator.obtain_token (self, w)))) = None.
Proof.
  intros Htok Hexp Hrefresh Hopen Hnet Hstatus.
  assert (Hrun : exists w', Authenticator.obtain_token (self, w) =
            (Raise NO_TOKEN, (Authenticator.set_token None self, w'))).
  { unfold Authenticator.obtain_token.
    erewrite bind_Return by (apply token_and_not_expired, Htok).
    replace (_ <? _) with true by (symmetry; apply Z.ltb_lt; lia).
    simpl negb. cbv iota.
    unfold bind at 1.
    erewrite bind_Return by (apply token_and_not_refresh_expired, Htok).
    replace (_ <? _) with false by (symmetry; apply Z.ltb_ge; exact Hrefresh).
    simpl negb.
    erewrite bind_Return by reflexivity. cbv iota. cbn [fst snd].
    unfold bind at 1. rewrite on_snd_eq.
    pose proof (refresh_token_accepted self tok (ticked (ticked w)) r rest
                  Htok Hopen Hnet Hstatus) as Hnone.
    destruct (Authenticator._refresh_token self _) as [res w'].
    simpl in Hnone. subst res. simpl. eexists. reflexivity. }
  destruct Hrun as [w' ->]. split; reflexivity.
Qed.
End Branches.

(** ** The queue client *)

Section BrokerFacts.
Context `{PyRuntime}.

Lemma auth_obtain_token_broker b w :
  fst (snd (Broker.auth_obtain_token (b, w))) =
  Broker.set_auth
    (fst (snd (Authenticator.obtain_token (Broker.auth b, w)))) b.
Proof.
  unfold Broker.auth_obtain_token, zoom. simpl.
  now destruct (Authenticator.obtain_token (Broker.auth b, w)) as [r [t w']].
Qed.

Lemma receive_token_Raise event all s e s' :
  Broker.auth_obtain_token s = (Raise e, s') ->
  Broker.receive event all s = (Raise e, s').
Proof.
  intros Htok. unfold Broker.receive, bind, Broker.get_self at 1. simpl.
  now rewrite Htok.
Qed.

Lemma receive_token_Return event all b w token b1 w1 :
  Broker.auth_obtain_token (b, w) = (Return token, (b1, w1)) ->
  Broker.receive event all (b, w) =
    match httpx_request (receive_request event all b1 token) w1 with
    | (Return response, w2) =>
        (receive_reply (if event then Broker.event_queue b else Broker.message_queue b)
           response, (b1, w2))
    | (Raise e, w2) => (Raise e, (b1, w2))
    end.
Proof.
  intros Htok.
  assert (Hb1 : Broker.event_queue b1 = Broker.event_queue b /\
                Broker.message_queue b1 = Broker.message_queue b).
  { pose proof (auth_obtain_token_broker b w) as Hb. rewrite Htok in Hb.
    simpl in Hb. subst b1. split; reflexivity. }
  destruct Hb1 as [Hev Hmq].
  unfold Broker.receive, bind, Broker.get_self. simpl. rewrite Htok. simpl.
  rewrite on_snd_eq. unfold receive_request. rewrite Hev, Hmq.
  destruct (httpx_request _ w1) as [[response | e] w2]; simpl; [| reflexivity].
  unfold receive_reply.
  destruct (negb _); [reflexivity |].
  destruct (bool_decide _); reflexivity.
Qed.

(** A poll that returns has issued exactly one [GET] and has consumed at
    least one reply of the network. *)
Lemma receive_Return event all s x s' :
  Broker.receive event all s = (Return x, s') ->
  gets (snd s') = S (gets (snd s)) /\
  (length (World.net (snd s')) < length (World.net (snd s)))%nat.
Proof.
  destruct s as [b w].
  destruct (auth_obtain_token_frame (b, w)) as [(Hg & Hn & _) _].
  destruct (Broker.auth_obtain_token (b, w)) as [[token | e] [b1 w1]] eqn:Htok.
  - rewrite (receive_token_Return _ _ _ _ _ _ _ Htok).
    destruct (httpx_request _ w1) as [[response | e] w2] eqn:Hreq; [| discriminate].
    intros [= _ <-]. simpl in *.
    apply httpx_request_Return in Hreq as (_ & Hnet & Hsent & _).
    unfold gets at 1. rewrite Hsent, (gets_snoc w1). cbn.
    rewrite Hnet in Hn. simpl in Hn. split; lia.
  - rewrite (receive_token_Raise _ _ _ _ _ Htok). discriminate.
Qed.

(** A poll never raises an exception group. *)
Lemma receive_Raise event all s e s' :
  Broker.receive event all s = (Raise e, s') -> not_group e.
Proof.
  destruct s as [b w].
  destruct (auth_obtain_token_frame (b, w)) as [_ Hexc].
  destruct (Broker.auth_obtain_token (b, w)) as [[token | e0] [b1 w1]] eqn:Htok.
  - rewrite (receive_token_Return _ _ _ _ _ _ _ Htok).
    destruct (httpx_request _ w1) as [[response | e1] w2] eqn:Hreq.
    + unfold receive_reply. destruct (negb _); [now intros [= <- _] |].
      destruct (bool_decide _); discriminate.
    + intros [= <- _]. eapply httpx_request_not_group, Hreq.
  - rewrite (receive_token_Raise _ _ _ _ _ Htok). intros [= <- _].
    now apply Hexc.
Qed.

(** C7.  Once the token is there and the transport is open, [receive]
    turns the broker's reply [r] into its result: a status other than 200
    raises an [S3IException] with the headers, status and text of the
    reply; status 200 with an empty body returns [None]; status 200 with
    any other body returns the pair of status and body. *)
Theorem receive_classifies_reply (event all : bool) (b b1 : Broker.t)
    (w w1 : World.t) (token : Token.t) (r : Response.t) (rest : list Reply) :
  Broker.auth_obtain_token (b, w) = (Return token, (b1, w1)) ->
  transport_open w1 (Broker.client b1) ->
  World.net w1 = Answer r :: rest ->
  let endpoint := if event then Broker.event_queue b else Broker.message_queue b in
  let outcome := fst (Broker.receive event all (b, w)) in
  (Response.status_code r <> 200 ->
   outcome = Raise (S3IError (S3IException.mk
               S3IException.S3IException
               ("Failed to get message from " +:+ endpoint +:+ ".")
               (Some (Response.headers r)) None
               (Some (Response.status_code r)) (Some (Response.text r)))))
  /\ (Response.status_code r = 200 -> Response.text r = "" -> outcome = Return None)
  /\ (Response.status_code r = 200 -> Response.text r <> "" ->
      outcome = Return (Some (Response.status_code r, Response.text r))).
Proof.
  intros Htok Hopen Hnet endpoint outcome. subst endpoint outcome.
  rewrite (receive_token_Return _ _ _ _ _ _ _ Htok).
  rewrite (httpx_request_Answer _ _ r rest) by assumption. simpl.
  unfold receive_reply. repeat split.
  - intros Hne. apply Z.eqb_neq in Hne. now rewrite Hne.
  - intros -> Hempty. simpl. now rewrite bool_decide_eq_true_2.
  - intros -> Hfull. simpl. now rewrite bool_decide_eq_false_2.
Qed.

(** C8.  Once the token is there and the transport is open, [send] turns
    the broker's reply [r] into its result: a status other than 201 raises
    an [S3IException] whose [status_code] is the status of the reply and
    which carries the headers of the reply, the message that was to be
    sent and the text of the reply; status 201 returns the pair of status
    and text. *)
Theorem send_classifies_reply (endpoint : string) (message : gmap string json)
    (b b1 : Broker.t) (w w1 : World.t) (token : Token.t) (r : Response.t)
    (rest : list Reply) :
  Broker.auth_obtain_token (b, w) = (Return token, (b1, w1)) ->
  transport_open w1 (Broker.client b1) ->
  World.net w1 = Answer r :: rest ->
  let outcome := fst (Broker.send endpoint message (b, w)) in
  (Response.status_code r <> 201 ->
   outcome = Raise (S3IError (S3IException.mk
               S3IException.S3IException
               ("Failed to send message to " +:+ endpoint +:+ ".")
               (Some (Response.headers r)) (Some (JDict message))
               (Some (Response.status_code r)) (Some (Response.text r)))))
  /\ (Response.status_code r = 201 ->
      outcome = Return (Response.status_code r, Response.text r)).
Proof.
  intros Htok Hopen Hnet outcome.
  assert (Hsend : outcome =
            if negb (Response.status_code r =? 201) then
              Raise (S3IError (S3IException.mk
                S3IException.S3IException
                ("Failed to send message to " +:+ endpoint +:+ ".")
                (Some (Response.headers r)) (Some (JDict message))
                (Some (Response.status_code r)) (Some (Response.text r))))
            else Return (Response.status_code r, Response.text r)).
  { subst outcome. unfold Broker.send.
    rewrite (bind_Return _ _ _ _ _ Htok).
    unfold Broker.get_self, bind. simpl. rewrite on_snd_eq.
    erewrite httpx_request_Answer by eassumption. simpl.
    now destruct (negb _). }
  rewrite Hsend. split.
  - intros Hne. apply Z.eqb_neq in Hne. now rewrite Hne.
  - intros ->. reflexivity.
Qed.

(** C6.  When the identity provider answers the request of a full grant
    with a status of 400 or more, [_get_token_from_idp] raises an
    exception of the module that carries the status and the body of the
    answer; its class is [InvalidCredentialsException] exactly when the
    body equals the known invalid-client text, and plain
    [AuthenticationException] for every other body. *)
Theorem full_grant_error_classification (self : Authenticator.t) (w : World.t)
    (r : Response.t) (rest : list Reply) :
  Authenticator.klass self <> Authenticator.BaseAuthenticator ->
  transport_open w (Authenticator.client self) ->
  World.net w = Answer r :: rest ->
  400 <= Response.status_code r ->
  exists e,
    fst (Authenticator._get_token_from_idp self w) = Raise (S3IError e)
    /\ S3IException.status_code e = Some (Response.status_code r)
    /\ S3IException.response e = Some (Response.text r)
    /\ (S3IException.klass e = S3IException.InvalidCredentialsException
        <-> Response.text r = INVALID_CLIENT_BODY)
    /\ (Response.text r <> INVALID_CLIENT_BODY ->
        S3IException.klass e = S3IException.AuthenticationException).
Proof.
  intros Hk Hopen Hnet Hstatus.
  unfold Authenticator._get_token_from_idp.
  assert (Hpayload : exists payload, forall s : World.t,
            Authenticator._build_auth_payload self s = (Return payload, s)).
  { unfold Authenticator._build_auth_payload.
    destruct (Authenticator.klass self); [congruence | |]; eexists; reflexivity. }
  destruct Hpayload as [payload Hpayload].
  rewrite (bind_Return _ _ _ _ _ (Hpayload w)).
  erewrite bind_Return by (apply httpx_request_Answer; [exact Hopen | exact Hnet]).
  replace (Response.status_code r >=? 400) with true by (symmetry; apply Z.geb_le; lia).
  destruct (bool_decide (Response.text r = INVALID_CLIENT_BODY)) eqn:Hbody.
  - apply bool_decide_eq_true in Hbody.
    eexists. split; [reflexivity |]. simpl. repeat split; auto; congruence.
  - apply bool_decide_eq_false in Hbody.
    eexists. split; [reflexivity |]. simpl. repeat split; auto; congruence.
Qed.

End BrokerFacts.

Lemma receive_classifies_reply_witness :
  fst (Broker.receive false false
         (Mock.broker, Mock.world 0 [Mock.ok_token; Mock.message Mock.REQUEST_TEXT]))
  = Return (Some (200, Mock.REQUEST_TEXT)).
Proof.
  refine (proj2 (proj2
            (receive_classifies_reply false false Mock.broker _
               (Mock.world 0 [Mock.ok_token; Mock.message Mock.REQUEST_TEXT]) _ _
               (Response.mk 200 Mock.REQUEST_TEXT []) [] _ _ _)) _ _).
  - vm_compute. reflexivity.
  - reflexivity.
  - reflexivity.
  - reflexivity.
  - discriminate.
Defined.

Lemma send_classifies_reply_witness :
  fst (Broker.send "s3ibs://camera" {[ "messageType" := JStr "getValueRequest" ]}
         (Mock.broker,
          Mock.world 0 [Mock.ok_token;
                        Answer (Response.mk 500 "boom" [("Retry-After", "1")])]))
  = Raise (S3IError (S3IException.mk
             S3IException.S3IException
             "Failed to send message to s3ibs://camera."
             (Some [("Retry-After", "1")])
             (Some (JDict {[ "messageType" := JStr "getValueRequest" ]}))
             (Some 500) (Some "boom"))).
Proof.
  refine (proj1
            (send_classifies_reply "s3ibs://camera"
               {[ "messageType" := JStr "getValueRequest" ]} Mock.broker _
               (Mock.world 0 [Mock.ok_token;
                              Answer (Response.mk 500 "boom" [("Retry-After", "1")])])
               _ _ (Response.mk 500 "boom" [("Retry-After", "1")]) [] _ _ _) _).
  - vm_compute. reflexivity.
  - reflexivity.
  - reflexivity.
  - discriminate.
Defined.

Lemma full_grant_error_classification_witness :
  exists e,
    fst (Authenticator._get_token_from_idp (Mock.authenticator None)
           (Mock.world 0 [Answer (Response.mk 401 INVALID_CLIENT_BODY [])]))
    = Raise (S3IError e)
    /\ S3IException.klass e = S3IException.InvalidCredentialsException
    /\ S3IException.status_code e = Some 401.
Proof.
  destruct (full_grant_error_classification (Mock.authenticator None)
              (Mock.world 0 [Answer (Response.mk 401 INVALID_CLIENT_BODY [])])
              (Response.mk 401 INVALID_CLIENT_BODY []) [])
    as (e & Hrun & Hstatus & _ & Hclass & _).
  - discriminate.
  - reflexivity.
  - reflexivity.
  - simpl. lia.
  - exists e. split; [exact Hrun |]. split; [| exact Hstatus].
    apply Hclass. reflexivity.
Defined.

(** ** The drain loop *)

Section DrainFacts.
Context `{PyRuntime} `{Pydantic}.

(** Handling a message touches no state. *)
Lemma handle_single_message_pure {S} text (s : S) :
  fetch_messages.handle_single_message text s =
  (fst (fetch_messages.handle_single_message text tt), s).
Proof.
  unfold fetch_messages.handle_single_message, bind, of_result.
  destruct (S3IMessage_model_validate_json text) as [[]|]; simpl; try reflexivity.
  destruct (fetch_messages.is_image_message _); [| reflexivity].
  unfold bind. now destruct (ImageValue_model_validate value).
Qed.

Lemma failures_cons m ms : failures (m :: ms) = failures [m] ++ failures ms.
Proof. unfold failures. simpl. now destruct (failure_of m). Qed.

Lemma drain_step fuel acc s m s1 :
  Broker.receive false false s = (Return (Some m), s1) ->
  fetch_messages.drain (S fuel) acc s =
  fetch_messages.drain fuel (acc ++ failures [m]) s1.
Proof.
  intros Hrecv. simpl. rewrite Hrecv.
  rewrite handle_single_message_pure. unfold failures, failure_of. simpl.
  destruct (fetch_messages.handle_single_message (snd m) tt) as [[u | e] []]; simpl.
  - now rewrite app_nil_r.
  - reflexivity.
Qed.

Lemma drain_polls s ms s1 :
  polls s ms s1 ->
  forall fuel acc,
    fetch_messages.drain (length ms + fuel) acc s =
    fetch_messages.drain fuel (acc ++ failures ms) s1.
Proof.
  induction 1 as [s | s s1 s' m ms Hrecv Hpolls IH]; intros fuel acc.
  - simpl. unfold failures. simpl. now rewrite app_nil_r.
  - simpl length. simpl Nat.add. rewrite (drain_step _ _ _ _ _ Hrecv), IH.
    now rewrite (failures_cons m ms), app_assoc.
Qed.

Lemma polls_gets s ms s1 :
  polls s ms s1 -> gets (snd s1) = (gets (snd s) + length ms)%nat.
Proof.
  induction 1 as [s | s s1 s' m ms Hrecv Hpolls IH]; simpl; [lia |].
  apply receive_Return in Hrecv as [Hg _]. lia.
Qed.

(** The loop ends: given more iterations than the network has replies
    left, it produces a result. *)
Lemma drain_total fuel :
  forall acc s,
    (length (World.net (snd s)) < fuel)%nat ->
    is_Some (fetch_messages.drain fuel acc s).
Proof.
  induction fuel as [|fuel IH]; intros acc s Hlt; [lia |].
  simpl.
  destruct (Broker.receive false false s) as [[[m|]|e] s1] eqn:Hrecv; eauto.
  apply receive_Return in Hrecv as [_ Hnet].
  rewrite handle_single_message_pure.
  destruct (fst _); simpl; apply IH; lia.
Qed.

Lemma fetch_s3i_messages_total fuel s :
  (length (World.net (snd s)) < fuel)%nat ->
  is_Some (fetch_messages.fetch_s3i_messages fuel s).
Proof.
  intros Hlt. unfold fetch_messages.fetch_s3i_messages.
  destruct (drain_total fuel [] s Hlt) as [[r s'] ->].
  destruct r as [[|]|]; eauto.
Qed.

(** Every failure of a received item is among [failures]. *)
Lemma failures_complete ms m e :
  m ∈ ms ->
  fst (fetch_messages.handle_single_message (snd m) tt) = Raise e ->
  e ∈ failures ms.
Proof.
  intros Hin Hraise. unfold failures. apply list_elem_of_omap.
  exists m. split; [exact Hin |]. unfold failure_of.
  destruct (fetch_messages.handle_single_message (snd m) tt) as [[u | e'] []];
    simpl in *; congruence.
Qed.

(** C4.  Let [receive] return the items [ms] one after the other and then
    [None].  The drain loop then polls until that [None]: it ends in the
    state after the last poll, having issued one [GET] per item and one
    more.  It returns normally when no item failed; otherwise it raises
    one [ExceptionGroup] whose members are the failures of the items, in
    order, and every exception that handling an item raises is among
    them. *)
Theorem drain_loop_aggregates_failures s ms s1 s' fuel :
  polls s ms s1 ->
  Broker.receive false false s1 = (Return None, s') ->
  (length ms < fuel)%nat ->
  fetch_messages.fetch_s3i_messages fuel s =
    Some (match failures ms with
          | [] => Return tt
          | e :: es =>
              Raise (ExceptionGroup fetch_messages.EXCEPTION_GROUP_MESSAGE (e :: es))
          end, s')
  /\ gets (snd s') = (gets (snd s) + length ms + 1)%nat
  /\ (forall m e, m ∈ ms ->
        fst (fetch_messages.handle_single_message (snd m) tt) = Raise e ->
        e ∈ failures ms).
Proof.
  intros Hpolls Hlast Hfuel. split; [| split].
  - unfold fetch_messages.fetch_s3i_messages.
    replace fuel with (length ms + S (fuel - length ms - 1))%nat by lia.
    rewrite (drain_polls _ _ _ Hpolls). simpl. rewrite Hlast. simpl.
    now destruct (failures ms).
  - apply polls_gets in Hpolls. apply receive_Return in Hlast as [Hg _]. lia.
  - intros m e. apply failures_complete.
Qed.

(** C10.  Let [receive] return the items [ms] one after the other and then
    raise [e].  The drain loop then ends with exactly that exception, in
    the state in which [receive] raised it; [e] is not an exception group,
    so whatever failures the items [ms] produced are reported by nobody. *)
Theorem drain_loop_receive_error_propagates s ms s1 s' e fuel :
  polls s ms s1 ->
  Broker.receive false false s1 = (Raise e, s') ->
  (length ms < fuel)%nat ->
  fetch_messages.fetch_s3i_messages fuel s = Some (Raise e, s')
  /\ is_exception_group e = false.
Proof.
  intros Hpolls Hlast Hfuel. split.
  - unfold fetch_messages.fetch_s3i_messages.
    replace fuel with (length ms + S (fuel - length ms - 1))%nat by lia.
    rewrite (drain_polls _ _ _ Hpolls). simpl. now rewrite Hlast.
  - eapply receive_Raise, Hlast.
Qed.

End DrainFacts.

Lemma drain_three_messages :
  fst <$> fetch_messages.fetch_s3i_messages 4 Mock.three_messages =
    Some (Raise (ExceptionGroup fetch_messages.EXCEPTION_GROUP_MESSAGE
                   [ValidationError "S3IMessage"]))
  /\ (gets ∘ snd ∘ snd) <$> fetch_messages.fetch_s3i_messages 4 Mock.three_messages
     = Some 4%nat.
Proof.
  assert (Hpolls : exists s1 s',
    polls Mock.three_messages
      [(200, Mock.REQUEST_TEXT); (200, Mock.BROKEN_TEXT); (200, Mock.IMAGE_TEXT)] s1
    /\ Broker.receive false false s1 = (Return None, s')).
  { eexists _, _. split.
    - eapply polls_next; [vm_compute; reflexivity |].
      eapply polls_next; [vm_compute; reflexivity |].
      eapply polls_next; [vm_compute; reflexivity |].
      apply polls_done.
    - vm_compute. reflexivity. }
  destruct Hpolls as (s1 & s' & Hpolls & Hlast).
  destruct (drain_loop_aggregates_failures _ _ _ _ 4%nat Hpolls Hlast)
    as (Hrun & Hgets & _).
  { simpl. lia. }
  rewrite Hrun. split.
  - reflexivity.
  - simpl. rewrite Hgets. reflexivity.
Defined.

Lemma drain_outage :
  fst <$> fetch_messages.fetch_s3i_messages 2 Mock.outage =
    Some (Raise (S3IError (S3IException.mk
                   S3IException.S3IException
                   "Failed to get message from s3ibs://id."
                   (Some []) None (Some 503) (Some "unavailable"))))
  /\ failures [(200, Mock.BROKEN_TEXT)] = [ValidationError "S3IMessage"].
Proof.
  assert (Hpolls : exists s1 s',
    polls Mock.outage [(200, Mock.BROKEN_TEXT)] s1
    /\ Broker.receive false false s1 =
       (Raise (S3IError (S3IException.mk
                 S3IException.S3IException
                 "Failed to get message from s3ibs://id."
                 (Some []) None (Some 503) (Some "unavailable"))), s')).
  { eexists _, _. split.
    - eapply polls_next; [vm_compute; reflexivity |].
      apply polls_done.
    - vm_compute. reflexivity. }
  destruct Hpolls as (s1 & s' & Hpolls & Hlast).
  destruct (drain_loop_receive_error_propagates _ _ _ _ _ 2%nat Hpolls Hlast)
    as (Hrun & _).
  { simpl. lia. }
  rewrite Hrun. split; reflexivity.
Defined.

(** ** Token expiry and the choice of grant *)

(** What the two properties compute, for every token and every clock. *)
Lemma Token_expired_eq tok w :
  fst (Token.expired tok w)
    = Return (World.clock w (World.ticks w) <? Token.expires_at tok)
  /\ fst (Token.refresh_expired tok w)
    = Return (World.clock w (World.ticks w) <? Token.refresh_expires_at tok).
Proof. split; reflexivity. Qed.

(** C1.  For the token of the test doubles, whose access token runs out
    at 300 and whose refresh token runs out at 1800: [expired] is [True]
    one second before 300 and [False] at 300, and [refresh_expired] is
    [True] one second before 1800 and [False] at 1800. *)
Theorem Token_expired_is_inverted :
  fst (Token.expired Mock.cached (Mock.world 299 [])) = Return true
  /\ fst (Token.expired Mock.cached (Mock.world 300 [])) = Return false
  /\ fst (Token.refresh_expired Mock.cached (Mock.world 1799 [])) = Return true
  /\ fst (Token.refresh_expired Mock.cached (Mock.world 1800 [])) = Return false.
Proof. repeat split; reflexivity. Qed.

(** C2.  With a cached token whose access token ran out at 300 and whose
    refresh token lasts until 1800, at time 500 and with the provider
    ready to answer 200, [obtain_token] sends nothing and returns the
    cached token.  With a cached token on which [expired] is [True] and
    [refresh_expired] is [False] (times 1000 and 200, clock at 500), the
    refresh request is sent and answered with 200, after which
    [obtain_token] raises [AuthenticationException] and the cache is
    empty. *)
Theorem obtain_token_refresh_never_yields_token :
  (let '(r, (a, w)) :=
     Authenticator.obtain_token
       (Mock.authenticator (Some Mock.cached), Mock.world 500 [Mock.ok_token]) in
   r = Return Mock.cached /\ World.sent w = [] /\ World.net w = [Mock.ok_token])
  /\
  (let '(r, (a, w)) :=
     Authenticator.obtain_token
       (Mock.authenticator (Some Mock.refresh_due), Mock.world 500 [Mock.ok_token]) in
   r = Raise NO_TOKEN /\ Authenticator.token a = None
   /\ length (World.sent w) = 1%nat /\ World.net w = []).
Proof. vm_compute. repeat split; reflexivity. Qed.

(** C3.  With a cached token whose access token lasts until 300, at time
    100, [obtain_token] sends a request to the identity provider and
    returns the token of the answer, not the cached one. *)
Theorem obtain_token_unexpired_requests_again :
  let '(r, (a, w)) :=
    Authenticator.obtain_token
      (Mock.authenticator (Some Mock.cached), Mock.world 100 [Mock.ok_token]) in
  r = Return (Token.mk (JStr "Bearer") (JStr "abc") 400 (JStr "def") 1900)
  /\ r <> Return Mock.cached
  /\ length (World.sent w) = 1%nat
  /\ World.net w = [].
Proof. vm_compute. repeat split; try reflexivity. discriminate. Qed.

(** ** Ownership of the transport *)

(** Finalizing an authenticator that was given a transport closes that
    transport; finalizing one that made its own transport closes nothing.
    The same holds for the broker. *)
Lemma authenticator_del_closes_injected k h url w :
  snd ((a <- Authenticator.__init__ k (Some h) url ;; Authenticator.__del__ a) w)
  = snd (httpx_close h w).
Proof. reflexivity. Qed.

Lemma authenticator_del_keeps_own k url w :
  snd ((a <- Authenticator.__init__ k None url ;; Authenticator.__del__ a) w)
  = snd (httpx_Client w).
Proof. reflexivity. Qed.

Lemma broker_del_closes_injected thing h url w :
  snd ((b <- Broker.__init__ thing (Some h) url ;; Broker.__del__ b) w)
  = snd (httpx_close h w).
Proof. reflexivity. Qed.

Lemma broker_del_keeps_own thing url w :
  snd ((b <- Broker.__init__ thing None url ;; Broker.__del__ b) w)
  = snd (httpx_Client w).
Proof. reflexivity. Qed.

(** C5.  In a world whose only transport is number 0: an authenticator
    that is given transport 0 has closed it once when it is finalized; an
    authenticator that is given none makes transport 1 and has not closed
    it when it is finalized; the same for a broker; when a broker that was
    given transport 0 is finalized together with its authenticator,
    transport 0 is closed twice; and a broker that was given none leaves
    the closing of its transport 1 to the finalizer of its authenticator. *)
Theorem teardown_closes_only_injected_transport :
  close_calls (snd (authenticator_lifetime (Some 0%nat) (Mock.world 0 []))) 0 = 1%nat
  /\ close_calls (snd (authenticator_lifetime None (Mock.world 0 []))) 1 = 0%nat
  /\ close_calls (snd (broker_lifetime (Some 0%nat) (Mock.world 0 []))) 0 = 1%nat
  /\ close_calls (snd (broker_lifetime None (Mock.world 0 []))) 1 = 0%nat
  /\ close_calls
       (snd (broker_and_authenticator_lifetime (Some 0%nat) (Mock.world 0 []))) 0
     = 2%nat
  /\ close_calls
       (snd (broker_and_authenticator_lifetime None (Mock.world 0 []))) 1
     = 1%nat.
Proof. repeat split; reflexivity. Qed.

(** ** The payload of the password grant *)

(** C9, as stated, fails: with the empty string as user name, user name and
    password are both present, yet the payload is empty. *)
Lemma password_payload_empty_username :
  Authenticator._build_auth_payload
    (password_authenticator "id" "secret" (Some "") (Some "pw")) tt
  = (Return ∅, tt)
  /\ Authenticator._build_auth_payload
       (password_authenticator "id" "secret" (Some "") (Some "pw")) tt
     <> (Return (password_payload_when_present "id" "secret" (Some "") (Some "pw")), tt).
Proof.
  split; [reflexivity |].
  intros Heq. vm_compute in Heq. discriminate.
Qed.

(** C9, amended.  The payload of a [PasswordAuthenticator] holds grant
    type, client id, client secret, user name and password when user name
    and password are both non-empty strings; it is empty when either of
    them is [None] or the empty string. *)
Theorem password_payload_when_nonempty {S} (self : Authenticator.t) (s : S)
    (id secret : string) (username password : option string) :
  Authenticator.klass self
    = Authenticator.PasswordAuthenticator id secret username password ->
  (forall u p, username = Some u -> password = Some p -> u <> "" -> p <> "" ->
     Authenticator._build_auth_payload self s
     = (Return (password_payload_when_present id secret username password), s))
  /\ (username = None \/ username = Some "" \/ password = None \/ password = Some "" ->
      Authenticator._build_auth_payload self s = (Return ∅, s)).
Proof.
  intros Hklass. unfold Authenticator._build_auth_payload. rewrite Hklass. split.
  - intros u p -> -> Hu Hp. simpl.
    rewrite !bool_decide_eq_false_2 by assumption. reflexivity.
  - intros [-> | [-> | [-> | ->]]]; simpl; rewrite ?andb_false_r; reflexivity.
Qed.

Lemma password_payload_when_nonempty_witness :
  Authenticator._build_auth_payload
    (password_authenticator "id" "secret" (Some "alice") (Some "pw")) tt
  = (Return (<["grant_type" := JStr "password"]>
             (<["client_id" := JStr "id"]>
              (<["client_secret" := JStr "secret"]>
               (<["username" := JStr "alice"]>
                (<["password" := JStr "pw"]> ∅))))), tt)
  /\ Authenticator._build_auth_payload
       (password_authenticator "id" "secret" (Some "alice") None) tt
     = (Return ∅, tt).
Proof.
  split.
  - apply (proj1 (password_payload_when_nonempty
                    (password_authenticator "id" "secret" (Some "alice") (Some "pw"))
                    tt "id" "secret" (Some "alice") (Some "pw") eq_refl)
             "alice" "pw"); [reflexivity | reflexivity | discriminate | discriminate].
  - apply (proj2 (password_payload_when_nonempty
                    (password_authenticator "id" "secret" (Some "alice") None)
                    tt "id" "secret" (Some "alice") None eq_refl)).
    right. right. left. reflexivity.
Defined.

(** * Further properties *)

(** ** The shape of [obtain_token] *)

Global Instance quiet_preorder : PreOrder quiet.
Proof.
  split.
  - intros w. unfold quiet. auto.
  - intros w1 w2 w3 (Hn & Hs & Hc & Hk & Ht) (Hn' & Hs' & Hc' & Hk' & Ht').
    unfold quiet. repeat split; try congruence. lia.
Qed.

Lemma datetime_now_quiet : respects quiet not_group datetime_now.
Proof.
  intros w. split; [| discriminate].
  unfold quiet. simpl. repeat split; lia.
Qed.

Section Shape.
Context `{PyRuntime}.

Lemma response_json_quiet r :
  respects quiet not_group (Authenticator.response_json r).
Proof.
  unfold Authenticator.response_json.
  destruct (json_loads _); [frame_ret | frame_raise].
Qed.

Ltac quiet_step :=
  first
    [ frame_ret
    | apply datetime_now_quiet
    | apply py_get_frame; exact _
    | apply py_getitem_frame; exact _
    | apply timedelta_seconds_frame; exact _
    | apply respects_bind; [exact _ | | intros ?] ].

(** Reading the token off an answer only reads the clock. *)
Lemma token_of_response_quiet r : respects quiet not_group (token_of_response r).
Proof.
  unfold token_of_response.
  apply respects_bind; [exact _ | apply response_json_quiet | intros resp_json].
  repeat quiet_step.
Qed.

Lemma get_token_from_idp_cases self payload w :
  (forall s : World.t, Authenticator._build_auth_payload self s = (Return payload, s)) ->
  Authenticator._get_token_from_idp self w =
    match httpx_request (grant_request self payload) w with
    | (Return response, w1) =>
        if Response.status_code response >=? 400 then
          (Raise (S3IError (S3IException.mk
                    (if bool_decide (Response.text response = INVALID_CLIENT_BODY)
                     then S3IException.InvalidCredentialsException
                     else S3IException.AuthenticationException)
                    (if bool_decide (Response.text response = INVALID_CLIENT_BODY)
                     then "Invalid client credentials."
                     else "Could not obtain token from S³I Identity Provider.")
                    None None
                    (Some (Response.status_code response))
                    (Some (Response.text response)))), w1)
        else token_of_response response w1
    | (Raise e, w1) => (Raise e, w1)
    end.
Proof.
  intros Hpayload. unfold Authenticator._get_token_from_idp.
  rewrite (bind_Return _ _ _ _ _ (Hpayload w)).
  unfold bind at 1. unfold grant_request.
  destruct (httpx_request _ w) as [[response | e] w1]; [| reflexivity].
  destruct (_ >=? _); [| reflexivity].
  destruct (bool_decide _); reflexivity.
Qed.

Lemma build_auth_payload_cases {S} self :
  (Authenticator.klass self = Authenticator.BaseAuthenticator /\
   forall s : S, Authenticator._build_auth_payload self s =
     (Raise (NotImplementedError "This method should be implemented by subclasses."), s))
  \/ exists payload,
       forall s : S, Authenticator._build_auth_payload self s = (Return payload, s).
Proof.
  unfold Authenticator._build_auth_payload.
  destruct (Authenticator.klass self); [left; split; reflexivity | right | right];
    eexists; reflexivity.
Qed.

Lemma obtain_token_cases self w :
  Authenticator.obtain_token (self, w) =
    match Authenticator.token self with
    | None => full_grant_branch self w
    | Some tok =>
        if World.clock w (World.ticks w) <? Token.expires_at tok then
          if World.clock w (S (World.ticks w)) <? Token.refresh_expires_at tok
          then full_grant_branch self (ticked (ticked w))
          else refresh_branch self (ticked (ticked w))
        else (Return tok, (self, ticked w))
    end.
Proof.
  destruct (Authenticator.token self) as [tok |] eqn:Htok.
  - destruct (World.clock w (World.ticks w) <? Token.expires_at tok) eqn:Hexp.
    + apply Z.ltb_lt in Hexp.
      destruct (World.clock w (S (World.ticks w)) <? Token.refresh_expires_at tok)
        eqn:Hrefresh.
      * apply Z.ltb_lt in Hrefresh.
        exact (obtain_token_requests_before_expiry self tok w Htok Hexp Hrefresh).
      * apply Z.ltb_ge in Hrefresh.
        unfold Authenticator.obtain_token.
        erewrite bind_Return by (apply token_and_not_expired, Htok).
        replace (_ <? _) with true by (symmetry; apply Z.ltb_lt; lia).
        simpl negb. cbv iota.
        unfold bind at 1.
        erewrite bind_Return by (apply token_and_not_refresh_expired, Htok).
        replace (_ <? _) with false by (symmetry; apply Z.ltb_ge; exact Hrefresh).
        simpl negb.
        erewrite bind_Return by reflexivity. cbv iota. cbn [fst snd].
        unfold bind at 1. rewrite on_snd_eq. unfold refresh_branch.
        destruct (Authenticator._refresh_token self _) as [[[new |] | e] w'];
          reflexivity.
    + apply Z.ltb_ge in Hexp. exact (obtain_token_reuses_expired self tok w Htok Hexp).
  - unfold Authenticator.obtain_token, Authenticator.token_and_not.
    unfold bind at 1. unfold bind at 1. unfold Authenticator.get_self at 1.
    cbn [fst snd]. rewrite Htok.
    unfold ret at 1. cbv iota.
    unfold bind at 1. unfold bind at 1. unfold bind at 1.
    unfold Authenticator.get_self at 1. cbn [fst snd]. rewrite Htok.
    unfold ret at 1. cbv iota.
    unfold bind at 1. unfold Authenticator.get_self at 1. cbv iota. cbn [fst snd].
    unfold bind at 1. rewrite on_snd_eq. unfold full_grant_branch.
    destruct (Authenticator._get_token_from_idp self w) as [[new | e] w'];
      reflexivity.
Qed.

End Shape.

(** ** Requests and cache of [obtain_token] *)

Lemma httpx_request_effect rq w :
  at_most_one_request (fun rq' => rq' = rq) w (snd (httpx_request rq w))
  /\ World.ticks (snd (httpx_request rq w)) = World.ticks w.
Proof.
  unfold httpx_request, at_most_one_request.
  destruct (World.clients w !! Request.client rq) as [[|n]|]; simpl;
    try (repeat split; auto; fail).
  destruct (World.net w) as [|[r|msg] rest]; simpl;
    (split; [split; [reflexivity | split; [reflexivity | right; eauto]] | reflexivity]).
Qed.

Lemma at_most_one_request_quiet_l ok w1 w2 w3 :
  quiet w1 w2 -> at_most_one_request ok w2 w3 -> at_most_one_request ok w1 w3.
Proof.
  intros (Hn & Hs & Hc & Hk & _) (Hc' & Hk' & Hreq). unfold at_most_one_request.
  rewrite <- Hn, <- Hs, <- Hc, <- Hk. auto.
Qed.

Lemma at_most_one_request_quiet_r ok w1 w2 w3 :
  at_most_one_request ok w1 w2 -> quiet w2 w3 -> at_most_one_request ok w1 w3.
Proof.
  intros (Hc & Hk & Hreq) (Hn' & Hs' & Hc' & Hk' & _). unfold at_most_one_request.
  rewrite Hn', Hs', Hc', Hk'. auto.
Qed.

Lemma at_most_one_request_weaken (ok ok' : Request.t -> Prop) w w' :
  (forall rq, ok rq -> ok' rq) ->
  at_most_one_request ok w w' -> at_most_one_request ok' w w'.
Proof.
  intros Hok (Hc & Hk & [Hsame | (rq & Hrq & Hsent & Hnet)]);
    unfold at_most_one_request; repeat split; auto.
  right. exists rq. auto.
Qed.

Lemma quiet_ticked w : quiet w (ticked w).
Proof. unfold quiet, ticked. simpl. repeat split; lia. Qed.

Section Requests.
Context `{PyRuntime}.

Lemma get_token_from_idp_effect self w :
  at_most_one_request (is_grant_request self) w
    (snd (Authenticator._get_token_from_idp self w)).
Proof.
  destruct (build_auth_payload_cases (S:=World.t) self) as [[_ Hraise] | [payload Hpayload]].
  - unfold Authenticator._get_token_from_idp. rewrite (bind_Raise _ _ _ _ _ (Hraise w)).
    simpl. unfold at_most_one_request. auto.
  - rewrite (get_token_from_idp_cases self payload w Hpayload).
    destruct (httpx_request_effect (grant_request self payload) w) as [Hreq _].
    apply (at_most_one_request_weaken _ (is_grant_request self)) in Hreq;
      [| intros rq ->; now exists payload].
    destruct (httpx_request _ w) as [[response | e] w1]; simpl in *; [| exact Hreq].
    destruct (_ >=? _); simpl; [exact Hreq |].
    eapply at_most_one_request_quiet_r; [exact Hreq |].
    apply token_of_response_quiet.
Qed.

Lemma refresh_token_effect self w :
  at_most_one_request (is_grant_request self) w
    (snd (Authenticator._refresh_token self w)).
Proof.
  unfold Authenticator._refresh_token.
  destruct (Authenticator.token self) as [tok |].
  - erewrite bind_Return by reflexivity.
    match goal with
    | |- context [httpx_request ?rq] =>
        destruct (httpx_request_effect rq w) as [Hreq _];
        apply (at_most_one_request_weaken _ (is_grant_request self)) in Hreq;
          [| intros rq' ->; eexists; reflexivity];
        unfold bind; destruct (httpx_request rq w) as [[response | e] w1]
    end; simpl in *; [| exact Hreq].
    destruct (_ >=? _); exact Hreq.
  - simpl. unfold at_most_one_request. auto.
Qed.

Lemma obtain_token_requests self w :
  at_most_one_request (is_grant_request self) w
    (snd (snd (Authenticator.obtain_token (self, w)))).
Proof.
  rewrite obtain_token_cases.
  assert (Hfull : forall w0, quiet w w0 ->
            at_most_one_request (is_grant_request self) w
              (snd (snd (full_grant_branch self w0)))).
  { intros w0 Hq. eapply at_most_one_request_quiet_l; [exact Hq |].
    pose proof (get_token_from_idp_effect self w0) as Heff.
    unfold full_grant_branch.
    destruct (Authenticator._get_token_from_idp self w0) as [[new | e] w']; exact Heff. }
  assert (Hrefresh : forall w0, quiet w w0 ->
            at_most_one_request (is_grant_request self) w
              (snd (snd (refresh_branch self w0)))).
  { intros w0 Hq. eapply at_most_one_request_quiet_l; [exact Hq |].
    pose proof (refresh_token_effect self w0) as Heff.
    unfold refresh_branch.
    destruct (Authenticator._refresh_token self w0) as [[[new |] | e] w']; exact Heff. }
  assert (Htwice : quiet w (ticked (ticked w))).
  { transitivity (ticked w); apply quiet_ticked. }
  destruct (Authenticator.token self) as [tok |].
  - destruct (_ <? Token.expires_at tok).
    + destruct (_ <? _); [now apply Hfull | now apply Hrefresh].
    + simpl. pose proof (quiet_ticked w) as (Hn & Hs & Hc & Hk & _).
      unfold at_most_one_request. auto.
  - apply Hfull. reflexivity.
Qed.

(** A call of [obtain_token] hands at most one request to a transport: a
    [POST] of a form to the URL of the identity provider on the
    authenticator's own transport.  It creates and closes no transport. *)
Theorem obtain_token_at_most_one_request self w :
  let w' := snd (snd (Authenticator.obtain_token (self, w))) in
  World.clients w' = World.clients w
  /\ ((World.sent w' = World.sent w /\ World.net w' = World.net w)
      \/ exists payload,
           World.sent w' =
             World.sent w ++
             [Request.mk (Authenticator.client self) POST (Authenticator.idp_url self)
                {[ "Content-Type" := "application/x-www-form-urlencoded" ]}
                (FormData payload)]
           /\ World.net w' = tail (World.net w)).
Proof.
  intros w'. subst w'.
  destruct (obtain_token_requests self w)
    as (Hclients & _ & [Hsame | (rq & [payload ->] & Hsent & Hnet)]).
  - split; [exact Hclients | now left].
  - split; [exact Hclients |]. right. exists payload. split; assumption.
Qed.

Lemma obtain_token_cache self w :
  match Authenticator.obtain_token (self, w) with
  | (Return tok, (self', _)) =>
      Authenticator.token self' = Some tok /\ same_authenticator_config self self'
  | (Raise e, (self', _)) =>
      self' = self \/ (self' = Authenticator.set_token None self /\ e = NO_TOKEN)
  end.
Proof.
  rewrite obtain_token_cases. unfold full_grant_branch, refresh_branch.
  unfold same_authenticator_config.
  destruct (Authenticator.token self) as [cached |] eqn:Htok.
  - destruct (_ <? Token.expires_at cached).
    + destruct (_ <? _).
      * destruct (Authenticator._get_token_from_idp self _) as [[new | e] w1];
          simpl; auto.
      * destruct (Authenticator._refresh_token self _) as [[[new |] | e] w1];
          simpl; auto.
    + auto.
  - destruct (Authenticator._get_token_from_idp self _) as [[new | e] w1];
      simpl; auto.
Qed.

(** The token that [obtain_token] returns is the one in the cache
    afterwards, and the call changes nothing else of the authenticator. *)
Theorem obtain_token_returns_cached_token self w tok self' w' :
  Authenticator.obtain_token (self, w) = (Return tok, (self', w')) ->
  Authenticator.token self' = Some tok /\ same_authenticator_config self self'.
Proof.
  intros Hrun. pose proof (obtain_token_cache self w) as Hcache.
  rewrite Hrun in Hcache. exact Hcache.
Qed.

(** A call of [obtain_token] that raises leaves the authenticator as it
    was, with one exception: when the cache is emptied, the error is the
    one that reports the missing token. *)
Theorem obtain_token_failure_cache self w e self' w' :
  Authenticator.obtain_token (self, w) = (Raise e, (self', w')) ->
  self' = self \/ (self' = Authenticator.set_token None self /\ e = NO_TOKEN).
Proof.
  intros Hrun. pose proof (obtain_token_cache self w) as Hcache.
  rewrite Hrun in Hcache. exact Hcache.
Qed.

End Requests.

(** ** The grants, answer by answer *)

Lemma build_auth_payload_state {S} self payload :
  Authenticator._build_auth_payload self tt = (Return payload, tt) ->
  forall s : S, Authenticator._build_auth_payload self s = (Return payload, s).
Proof.
  unfold Authenticator._build_auth_payload.
  destruct (Authenticator.klass self); [discriminate | |];
    intros [= <-] s; reflexivity.
Qed.

Section Grants.
Context `{PyRuntime}.

Lemma token_of_response_ok r w d n m :
  json_loads (Response.text r) = Some (JDict d) ->
  d !! "expires_in" = Some (JInt n) ->
  d !! "refresh_expires_in" = Some (JInt m) ->
  token_of_response r w =
    (Return (Token.mk (dict_get d "token_type") (dict_get d "access_token")
               (World.clock w (World.ticks w) + n)
               (dict_get d "refresh_token")
               (World.clock w (S (World.ticks w)) + m)),
     ticked (ticked w)).
Proof.
  intros Hjson Hexp Hrefresh.
  unfold token_of_response, Authenticator.response_json. rewrite Hjson.
  unfold bind, py_get, py_getitem, ret, datetime_now. cbn [fst snd].
  rewrite Hexp. cbn. rewrite Hrefresh. reflexivity.
Qed.

Lemma full_grant_answered self w payload r rest :
  Authenticator._build_auth_payload self tt = (Return payload, tt) ->
  transport_open w (Authenticator.client self) ->
  World.net w = Answer r :: rest ->
  Response.status_code r < 400 ->
  Authenticator._get_token_from_idp self w =
    token_of_response r (answered (grant_request self payload) rest w).
Proof.
  intros Hpayload Hopen Hnet Hstatus.
  rewrite (get_token_from_idp_cases self payload w
             (build_auth_payload_state self payload Hpayload)).
  rewrite (httpx_request_Answer _ _ r rest) by assumption.
  replace (Response.status_code r >=? 400) with false
    by (symmetry; rewrite Z.geb_leb; apply Z.leb_gt; lia).
  reflexivity.
Qed.



(** An object of the base class cannot obtain a first token: the call
    raises [NotImplementedError] and nothing is sent. *)
Theorem obtain_token_base_class self w :
  Authenticator.klass self = Authenticator.BaseAuthenticator ->
  Authenticator.token self = None ->
  Authenticator.obtain_token (self, w) =
    (Raise (NotImplementedError "This method should be implemented by subclasses."),
     (self, w)).
Proof.
  intros Hklass Htok. rewrite obtain_token_cases, Htok. unfold full_grant_branch.
  unfold Authenticator._get_token_from_idp, Authenticator._build_auth_payload.
  rewrite Hklass. reflexivity.
Qed.

(** A refresh that the identity provider rejects: the call raises
    [AuthenticationException] with the status and the body of the answer,
    and the cached token stays. *)
Theorem obtain_token_refresh_rejected self tok w r rest :
  Authenticator.token self = Some tok ->
  World.clock w (World.ticks w) < Token.expires_at tok ->
  Token.refresh_expires_at tok <= World.clock w (S (World.ticks w)) ->
  transport_open w (Authenticator.client self) ->
  World.net w = Answer r :: rest ->
  400 <= Response.status_code r ->
  Authenticator.obtain_token (self, w) =
    (Raise (S3IError (S3IException.mk
              S3IException.AuthenticationException
              "Could not refresh token from S³I Identity Provider."
              None None
              (Some (Response.status_code r)) (Some (Response.text r)))),
     (self,
      answered (grant_request self (refresh_payload tok)) rest (ticked (ticked w)))).
Proof.
  intros Htok Hexp Hrefresh Hopen Hnet Hstatus.
  rewrite obtain_token_cases, Htok.
  replace (_ <? Token.expires_at tok) with true by (symmetry; apply Z.ltb_lt; lia).
  replace (_ <? Token.refresh_expires_at tok) with false
    by (symmetry; apply Z.ltb_ge; exact Hrefresh).
  unfold refresh_branch, Authenticator._refresh_token. rewrite Htok.
  erewrite bind_Return by reflexivity.
  erewrite bind_Return by (apply httpx_request_Answer; [exact Hopen | exact Hnet]).
  replace (Response.status_code r >=? 400) with true
    by (symmetry; apply Z.geb_le; lia).
  reflexivity.
Qed.

End Grants.

(** ** What the queue client sends *)

Section BrokerRequests.
Context `{PyRuntime}.

Lemma obtain_token_config self w :
  same_authenticator_config self (fst (snd (Authenticator.obtain_token (self, w)))).
Proof.
  pose proof (obtain_token_cache self w) as Hcache.
  destruct (Authenticator.obtain_token (self, w)) as [[tok | e] [self' w']].
  - now destruct Hcache as [_ Hcfg].
  - destruct Hcache as [-> | [-> _]];
      unfold same_authenticator_config; simpl; auto.
Qed.

Lemma auth_obtain_token_config b w :
  same_broker_config b (fst (snd (Broker.auth_obtain_token (b, w)))).
Proof.
  rewrite auth_obtain_token_broker. unfold same_broker_config. simpl.
  repeat split; try reflexivity; apply obtain_token_config.
Qed.

Lemma auth_obtain_token_world b w :
  snd (snd (Broker.auth_obtain_token (b, w))) =
  snd (snd (Authenticator.obtain_token (Broker.auth b, w))).
Proof.
  unfold Broker.auth_obtain_token, zoom. simpl.
  now destruct (Authenticator.obtain_token (Broker.auth b, w)) as [r [t w']].
Qed.

Lemma send_token_Raise endpoint message s e s' :
  Broker.auth_obtain_token s = (Raise e, s') ->
  Broker.send endpoint message s = (Raise e, s').
Proof. intros Htok. unfold Broker.send. now rewrite (bind_Raise _ _ _ _ _ Htok). Qed.

Lemma send_token_Return endpoint message b w token b1 w1 :
  Broker.auth_obtain_token (b, w) = (Return token, (b1, w1)) ->
  Broker.send endpoint message (b, w) =
    match httpx_request (send_request endpoint message b token) w1 with
    | (Return response, w2) =>
        (if negb (Response.status_code response =? 201) then
           Raise (S3IError (S3IException.mk
                    S3IException.S3IException
                    ("Failed to send message to " +:+ endpoint +:+ ".")
                    (Some (Response.headers response)) (Some (JDict message))
                    (Some (Response.status_code response))
                    (Some (Response.text response))))
         else Return (Response.status_code response, Response.text response),
         (b1, w2))
    | (Raise e, w2) => (Raise e, (b1, w2))
    end.
Proof.
  intros Htok.
  assert (Hcfg : same_broker_config b b1).
  { pose proof (auth_obtain_token_config b w) as Hcfg. now rewrite Htok in Hcfg. }
  destruct Hcfg as (Hurl & Hclient & _).
  unfold Broker.send. rewrite (bind_Return _ _ _ _ _ Htok).
  unfold Broker.get_self, bind. cbn [fst snd]. rewrite on_snd_eq.
  unfold send_request. rewrite <- Hurl, <- Hclient.
  replace (Token.header token ∪ {["Content-Type" := "application/json"]})
    with (<["Authorization" := Token.full_token token]>
          (<["Content-Type" := "application/json"]> (∅ : gmap string string)))
    by reflexivity.
  destruct (httpx_request _ w1) as [[response | e] w2]; simpl; [| reflexivity].
  now destruct (negb _).
Qed.

End BrokerRequests.

Section BrokerCalls.
Context `{PyRuntime}.

Lemma httpx_request_recorded rq w :
  transport_open w (Request.client rq) ->
  World.sent (snd (httpx_request rq w)) = World.sent w ++ [rq].
Proof.
  unfold transport_open, httpx_request. intros ->.
  destruct (World.net w) as [|[r|msg] rest]; reflexivity.
Qed.

(** Once the token is there, [send] hands exactly one request to the open
    transport of the broker, whatever the network does with it: a [POST]
    to the broker URL followed by a slash and the endpoint, with the
    message as JSON body, the content type [application/json] and the
    scheme and content of the token, separated by a space, as
    [Authorization]. *)
Theorem send_posts_message (endpoint : string) (message : gmap string json)
    (b b1 : Broker.t) (w w1 : World.t) (token : Token.t) :
  Broker.auth_obtain_token (b, w) = (Return token, (b1, w1)) ->
  transport_open w1 (Broker.client b) ->
  World.sent (snd (snd (Broker.send endpoint message (b, w)))) =
    World.sent w1 ++
    [Request.mk (Broker.client b) POST (Broker.broker_url b +:+ "/" +:+ endpoint)
       (<["Authorization" :=
            format_value (Token.auth_scheme token) +:+ " "
            +:+ format_value (Token.token_content token)]>
        (<["Content-Type" := "application/json"]> ∅))
       (JsonBody (JDict message))].
Proof.
  intros Htok Hopen. rewrite (send_token_Return _ _ _ _ _ _ _ Htok).
  pose proof (httpx_request_recorded (send_request endpoint message b token) w1 Hopen)
    as Hsent.
  destruct (httpx_request _ w1) as [[response | e] w2]; exact Hsent.
Qed.

(** Once the token is there, [receive] hands exactly one request to the
    open transport of the broker: a [GET] without body, with the token as
    only header, to the broker URL followed by a slash and the event queue
    or the message queue, with [/all] appended when [all] is set. *)
Theorem receive_gets_queue (event all : bool) (b b1 : Broker.t) (w w1 : World.t)
    (token : Token.t) :
  Broker.auth_obtain_token (b, w) = (Return token, (b1, w1)) ->
  transport_open w1 (Broker.client b) ->
  World.sent (snd (snd (Broker.receive event all (b, w)))) =
    World.sent w1 ++
    [Request.mk (Broker.client b) GET
       (Broker.broker_url b +:+ "/"
        +:+ (if event then Broker.event_queue b else Broker.message_queue b)
        +:+ (if all then "/all" else ""))
       {[ "Authorization" :=
            format_value (Token.auth_scheme token) +:+ " "
            +:+ format_value (Token.token_content token) ]}
       NoBody].
Proof.
  intros Htok Hopen. rewrite (receive_token_Return _ _ _ _ _ _ _ Htok).
  assert (Hcfg : same_broker_config b b1).
  { pose proof (auth_obtain_token_config b w) as Hcfg. now rewrite Htok in Hcfg. }
  destruct Hcfg as (Hurl & Hclient & _ & Hmq & Heq & _).
  assert (Hrq : receive_request event all b1 token =
                Request.mk (Broker.client b) GET
                  (Broker.broker_url b +:+ "/"
                   +:+ (if event then Broker.event_queue b else Broker.message_queue b)
                   +:+ (if all then "/all" else ""))
                  {[ "Authorization" :=
                       format_value (Token.auth_scheme token) +:+ " "
                       +:+ format_value (Token.token_content token) ]}
                  NoBody).
  { unfold receive_request. now rewrite Hurl, Hclient, Hmq, Heq. }
  rewrite Hrq.
  match goal with
  | |- context [httpx_request ?rq w1] =>
      pose proof (httpx_request_recorded rq w1 Hopen) as Hsent;
      destruct (httpx_request rq w1) as [[response | e] w2]; exact Hsent
  end.
Qed.

(** When the token cannot be obtained, [send] and [receive] fail with the
    error of the authenticator, in the state in which it was raised: the
    broker is not contacted. *)
Theorem token_failure_stops_broker_call (event all : bool) (endpoint : string)
    (message : gmap string json) (b b1 : Broker.t) (w w1 : World.t) (e : PyExc) :
  Broker.auth_obtain_token (b, w) = (Raise e, (b1, w1)) ->
  Broker.send endpoint message (b, w) = (Raise e, (b1, w1))
  /\ Broker.receive event all (b, w) = (Raise e, (b1, w1))
  /\ at_most_one_request (is_grant_request (Broker.auth b)) w w1.
Proof.
  intros Htok. split; [| split].
  - now apply send_token_Raise.
  - now apply receive_token_Raise.
  - pose proof (obtain_token_requests (Broker.auth b) w) as Hreq.
    rewrite <- auth_obtain_token_world, Htok in Hreq. exact Hreq.
Qed.

Lemma receive_config (event all : bool) (b : Broker.t) (w : World.t) :
  same_broker_config b (fst (snd (Broker.receive event all (b, w)))).
Proof.
  pose proof (auth_obtain_token_config b w) as Hcfg.
  destruct (Broker.auth_obtain_token (b, w)) as [[token | e] [b1 w1]] eqn:Htok.
  - rewrite (receive_token_Return _ _ _ _ _ _ _ Htok).
    destruct (httpx_request _ w1) as [[response | e] w2]; exact Hcfg.
  - rewrite (receive_token_Raise _ _ _ _ _ Htok). exact Hcfg.
Qed.

Lemma send_config (endpoint : string) (message : gmap string json)
    (b : Broker.t) (w : World.t) :
  same_broker_config b (fst (snd (Broker.send endpoint message (b, w)))).
Proof.
  pose proof (auth_obtain_token_config b w) as Hcfg.
  destruct (Broker.auth_obtain_token (b, w)) as [[token | e] [b1 w1]] eqn:Htok.
  - rewrite (send_token_Return _ _ _ _ _ _ _ Htok).
    destruct (httpx_request _ w1) as [[response | e] w2]; exact Hcfg.
  - rewrite (send_token_Raise _ _ _ _ _ Htok). exact Hcfg.
Qed.

(** Neither [receive] nor [send] changes the broker beyond the cached
    token of its authenticator: URL, transport, queues, class and
    credentials stay. *)
Theorem broker_calls_keep_configuration (event all : bool) (endpoint : string)
    (message : gmap string json) (b : Broker.t) (w : World.t) :
  same_broker_config b (fst (snd (Broker.receive event all (b, w))))
  /\ same_broker_config b (fst (snd (Broker.send endpoint message (b, w)))).
Proof.
  split.
  - apply receive_config.
  - apply send_config.
Qed.

(** [Broker.__init__] never fails and sends nothing.  The broker and its
    authenticator work on one and the same transport: the given one, or a
    new open one when none is given.  The authenticator is a
    [ClientAuthenticator] with the credentials of the thing, without a
    cached token, for the default identity provider. *)
Theorem broker_init_shares_transport (thing : Thing.t) (client : option nat)
    (url : string) (w : World.t) :
  exists b w',
    Broker.__init__ thing client url w = (Return b, w')
    /\ Authenticator.client (Broker.auth b) = Broker.client b
    /\ Broker.client b = default (length (World.clients w)) client
    /\ World.clients w' =
       (if client is Some _ then World.clients w else World.clients w ++ [0%nat])
    /\ Broker.auth b =
       Authenticator.mk None DEFAULT_IDP_URL (Broker.client b) false
         (Authenticator.ClientAuthenticator (Thing.id thing) (Thing.secret thing))
    /\ Broker.message_queue b = Thing.message_queue thing
    /\ Broker.event_queue b = Thing.event_queue thing
    /\ World.sent w' = World.sent w /\ World.net w' = World.net w.
Proof.
  destruct client as [h |]; eexists _, _; repeat split.
Qed.

End BrokerCalls.

(** ** Messages and the drain loop *)

Lemma append_empty_r (s : string) : s +:+ "" = s.
Proof.
  induction s as [| c s IH]; [reflexivity |].
  change (String c s +:+ "") with (String c (s +:+ "")). now rewrite IH.
Qed.

Lemma same_broker_config_trans b1 b2 b3 :
  same_broker_config b1 b2 -> same_broker_config b2 b3 -> same_broker_config b1 b3.
Proof.
  unfold same_broker_config, same_authenticator_config.
  intros (? & ? & ? & ? & ? & ? & ? & ? & ?) (? & ? & ? & ? & ? & ? & ? & ? & ?).
  repeat split; congruence.
Qed.

Lemma drain_request_config b b' rq :
  same_broker_config b b' -> drain_request b' rq -> drain_request b rq.
Proof.
  unfold same_broker_config, same_authenticator_config, drain_request.
  intros (Hurl & Hclient & _ & Hmq & _ & Hidp & Hac & _).
  rewrite Hurl, Hclient, Hmq, Hidp, Hac. auto.
Qed.

Lemma is_image_message_reply (m : S3IMessage.t) :
  fetch_messages.is_image_message m = true ->
  exists sender identifier receivers replyingToMessage value,
    m = S3IMessage.GetValueReplyBody sender identifier receivers replyingToMessage value
    /\ value !! "type" = Some (JStr "b64 jpeg").
Proof.
  destruct m as [| sender identifier receivers replyingToMessage value];
    [discriminate |].
  unfold fetch_messages.is_image_message, dict_get, eq_str. simpl.
  destruct (value !! "type") as [[| | | s | |] |] eqn:Htype; try discriminate.
  intros Hs. apply bool_decide_eq_true in Hs. subst s. eauto 10.
Qed.

(** A message is an image message exactly when it is a reply whose value
    has the string [b64 jpeg] under [type]. *)
Theorem is_image_message_iff (m : S3IMessage.t) :
  fetch_messages.is_image_message m = true <->
  exists sender identifier receivers replyingToMessage value,
    m = S3IMessage.GetValueReplyBody sender identifier receivers replyingToMessage value
    /\ value !! "type" = Some (JStr "b64 jpeg").
Proof.
  split; [apply is_image_message_reply |].
  intros (sender & identifier & receivers & replyingToMessage & value & -> & Htype).
  unfold fetch_messages.is_image_message, dict_get, eq_str. simpl.
  now rewrite Htype.
Qed.

Section Handling.
Context `{PyRuntime} `{Pydantic}.

(** Handling a message fails in two ways only: the text is not a valid
    message, or it is an image message whose value is not a valid image
    value; the error is the one of the validator.  Handling changes no
    state. *)
Theorem handle_single_message_failure {S} (text : string) (s s' : S) (e : PyExc) :
  fetch_messages.handle_single_message text s = (Raise e, s') ->
  s' = s /\
  (S3IMessage_model_validate_json text = Raise e
   \/ exists sender identifier receivers replyingToMessage value,
        S3IMessage_model_validate_json text =
          Return (S3IMessage.GetValueReplyBody sender identifier receivers
                    replyingToMessage value)
        /\ value !! "type" = Some (JStr "b64 jpeg")
        /\ ImageValue_model_validate value = Raise e).
Proof.
  unfold fetch_messages.handle_single_message, bind, of_result.
  destruct (S3IMessage_model_validate_json text)
    as [[| sender identifier receivers replyingToMessage value] | e0] eqn:Hvalid.
  - discriminate.
  - destruct (fetch_messages.is_image_message _) eqn:Himage; [| discriminate].
    apply is_image_message_reply in Himage
      as (? & ? & ? & ? & value' & [= <- <- <- <- <-] & Htype).
    unfold bind. destruct (ImageValue_model_validate value) as [v | e1] eqn:Himg;
      [discriminate |].
    intros [= <- <-]. split; [reflexivity |]. right. eauto 10.
  - intros [= <- <-]. auto.
Qed.

(** A valid message that is not an image message is handled without
    error, whatever the validator of image values would say. *)
Theorem handle_single_message_other {S} (text : string) (s : S) (m : S3IMessage.t) :
  S3IMessage_model_validate_json text = Return m ->
  fetch_messages.is_image_message m = false ->
  fetch_messages.handle_single_message text s = (Return tt, s).
Proof.
  intros Hvalid Himage.
  unfold fetch_messages.handle_single_message, bind, of_result. rewrite Hvalid.
  destruct m; [reflexivity |]. now rewrite Himage.
Qed.

Lemma receive_sent (b : Broker.t) (w : World.t) rq :
  rq ∈ World.sent (snd (snd (Broker.receive false false (b, w)))) ->
  rq ∈ World.sent w \/ drain_request b rq.
Proof.
  pose proof (obtain_token_requests (Broker.auth b) w) as Hreq.
  rewrite <- auth_obtain_token_world in Hreq.
  pose proof (auth_obtain_token_config b w) as Hcfg.
  assert (Hgrant : forall w1 rq',
            at_most_one_request (is_grant_request (Broker.auth b)) w w1 ->
            rq' ∈ World.sent w1 -> rq' ∈ World.sent w \/ drain_request b rq').
  { intros w1 rq' (_ & _ & [[-> _] | (rq0 & [payload ->] & -> & _)]) Hin; [auto |].
    apply elem_of_app in Hin as [Hin | Hin]; [auto |].
    apply list_elem_of_singleton in Hin as ->. right. left. simpl. auto. }
  destruct (Broker.auth_obtain_token (b, w)) as [[token | e] [b1 w1]] eqn:Htok;
    simpl in Hreq, Hcfg.
  - rewrite (receive_token_Return _ _ _ _ _ _ _ Htok).
    destruct (httpx_request_effect (receive_request false false b1 token) w1)
      as [(_ & _ & Hsent) _].
    intros Hin.
    assert (Hin' : rq ∈ World.sent (snd (httpx_request
                      (receive_request false false b1 token) w1))).
    { destruct (httpx_request _ w1) as [[response | e] w2]; exact Hin. }
    destruct Hsent as [[Hsame _] | (rq0 & -> & Hsame & _)]; rewrite Hsame in Hin'.
    + now apply (Hgrant w1).
    + apply elem_of_app in Hin' as [Hin' | Hin']; [now apply (Hgrant w1) |].
      apply list_elem_of_singleton in Hin' as ->. right.
      apply (drain_request_config b b1); [exact Hcfg |]. right.
      unfold receive_request. simpl. rewrite append_empty_r. auto.
  - rewrite (receive_token_Raise _ _ _ _ _ Htok). simpl. now apply Hgrant.
Qed.

Lemma drain_sent fuel :
  forall acc b w r b' w',
    fetch_messages.drain fuel acc (b, w) = Some (r, (b', w')) ->
    same_broker_config b b' /\
    forall rq, rq ∈ World.sent w' -> rq ∈ World.sent w \/ drain_request b rq.
Proof.
  induction fuel as [| fuel IH]; intros acc b w r b' w'; [discriminate |].
  simpl.
  pose proof (fun rq => receive_sent b w rq) as Hsent.
  pose proof (receive_config false false b w) as Hcfg.
  destruct (Broker.receive false false (b, w)) as [[[m |] | e] [b1 w1]] eqn:Hrecv;
    simpl in Hsent, Hcfg.
  - rewrite handle_single_message_pure.
    assert (Hrest : forall acc',
              fetch_messages.drain fuel acc' (b1, w1) = Some (r, (b', w')) ->
              same_broker_config b b' /\
              forall rq, rq ∈ World.sent w' -> rq ∈ World.sent w \/ drain_request b rq).
    { intros acc' Hrun. apply IH in Hrun as [Hcfg' Hsent'].
      split; [now apply (same_broker_config_trans b b1 b') |].
      intros rq Hin. apply Hsent' in Hin as [Hin | Hin]; [now apply Hsent |].
      right. now apply (drain_request_config b b1). }
    destruct (fst _); apply Hrest.
  - intros [= <- <- <-]. auto.
  - intros [= <- <- <-]. auto.
Qed.

(** Whatever a run of [fetch_s3i_messages] sends is a request for a token
    to the identity provider or a [GET] for the message queue of the
    broker: it never polls the event queue, never asks for [/all] and
    never posts to the broker.  The broker keeps its configuration. *)
Theorem fetch_s3i_messages_requests fuel b w r b' w' :
  fetch_messages.fetch_s3i_messages fuel (b, w) = Some (r, (b', w')) ->
  same_broker_config b b' /\
  forall rq, rq ∈ World.sent w' -> rq ∈ World.sent w \/ drain_request b rq.
Proof.
  unfold fetch_messages.fetch_s3i_messages.
  destruct (fetch_messages.drain fuel [] (b, w)) as [[r0 [b0 w0]] |] eqn:Hdrain;
    [| discriminate].
  apply drain_sent in Hdrain.
  destruct r0 as [[| e es] | e]; intros [= _ <- <-]; exact Hdrain.
Qed.

End Handling.

(** ** The errors of the authenticator *)

Section AuthErrors.
Context `{PyRuntime}.

Lemma httpx_request_error rq w e w' :
  httpx_request rq w = (Raise e, w') -> authentication_if_s3i e.
Proof.
  unfold httpx_request.
  destruct (World.clients w !! Request.client rq) as [[|n]|];
    try (now intros [= <- <-]).
  destruct (World.net w) as [|[r0|msg] rest]; try discriminate; now intros [= <- <-].
Qed.

Lemma token_of_response_error r w e w' :
  token_of_response r w = (Raise e, w') -> authentication_if_s3i e.
Proof.
  unfold token_of_response, Authenticator.response_json.
  destruct (json_loads _) as [[| | | | | d] |];
    try (intros [= <- <-]; exact I).
  unfold bind, py_get, py_getitem, ret, datetime_now. cbn [fst snd].
  destruct (d !! "expires_in") as [[| [|] | n | | |] |];
    try (intros [= <- <-]; exact I);
    cbn;
    destruct (d !! "refresh_expires_in") as [[| [|] | m | | |] |];
    try (intros [= <- <-]; exact I); discriminate.
Qed.

(** Whatever [obtain_token] raises from the module [s3i.exceptions] is an
    [AuthenticationException] or one of its subclasses. *)
Theorem obtain_token_s3i_error_class self w e :
  fst (Authenticator.obtain_token (self, w)) = Raise (S3IError e) ->
  S3IException.isinstance e S3IException.AuthenticationException = true.
Proof.
  assert (Hfull : forall w0,
            fst (full_grant_branch self w0) = Raise (S3IError e) ->
            S3IException.isinstance e S3IException.AuthenticationException = true).
  { intros w0. unfold full_grant_branch.
    destruct (build_auth_payload_cases (S:=World.t) self)
      as [[_ Hraise] | [payload Hpayload]].
    - unfold Authenticator._get_token_from_idp.
      rewrite (bind_Raise _ _ _ _ _ (Hraise w0)). discriminate.
    - rewrite (get_token_from_idp_cases self payload w0 Hpayload).
      destruct (httpx_request _ w0) as [[response | e0] w1] eqn:Hreq.
      + destruct (_ >=? _).
        * destruct (bool_decide _); now intros [= <-].
        * destruct (token_of_response response w1) as [[new | e0] w2] eqn:Hparse;
            [discriminate |].
          intros [= ->]. exact (token_of_response_error _ _ _ _ Hparse).
      + intros [= ->]. exact (httpx_request_error _ _ _ _ Hreq). }
  assert (Hrefresh : forall w0,
            fst (refresh_branch self w0) = Raise (S3IError e) ->
            S3IException.isinstance e S3IException.AuthenticationException = true).
  { intros w0. unfold refresh_branch, Authenticator._refresh_token.
    destruct (Authenticator.token self) as [tok |]; [| discriminate].
    erewrite bind_Return by reflexivity. unfold bind.
    destruct (httpx_request _ w0) as [[response | e0] w1] eqn:Hreq.
    - destruct (_ >=? _); now intros [= <-].
    - intros [= ->]. exact (httpx_request_error _ _ _ _ Hreq). }
  rewrite obtain_token_cases.
  destruct (Authenticator.token self) as [tok |]; [| apply Hfull].
  destruct (_ <? Token.expires_at tok); [| discriminate].
  destruct (_ <? _); [apply Hfull | apply Hrefresh].
Qed.

End AuthErrors.

(** ** Runs of the further properties *)



Lemma obtain_token_base_class_witness :
  Authenticator.obtain_token
    (Scenario.base_authenticator, Mock.world 0 [Mock.ok_token]) =
    (Raise (NotImplementedError "This method should be implemented by subclasses."),
     (Scenario.base_authenticator, Mock.world 0 [Mock.ok_token])).
Proof.
  apply (obtain_token_base_class Scenario.base_authenticator
           (Mock.world 0 [Mock.ok_token])); reflexivity.
Defined.

Lemma obtain_token_returns_cached_token_witness :
  Authenticator.token (Mock.authenticator (Some Scenario.fresh_token))
    = Some Scenario.fresh_token
  /\ same_authenticator_config (Mock.authenticator None)
       (Mock.authenticator (Some Scenario.fresh_token)).
Proof.
  refine (obtain_token_returns_cached_token (Mock.authenticator None)
            (Mock.world 0 [Mock.ok_token]) Scenario.fresh_token
            (Mock.authenticator (Some Scenario.fresh_token)) _ _).
  vm_compute. reflexivity.
Defined.

Lemma obtain_token_failure_cache_witness :
  Mock.authenticator None = Mock.authenticator (Some Mock.refresh_due)
  \/ (Mock.authenticator None
        = Authenticator.set_token None (Mock.authenticator (Some Mock.refresh_due))
      /\ NO_TOKEN = NO_TOKEN).
Proof.
  refine (obtain_token_failure_cache (Mock.authenticator (Some Mock.refresh_due))
            (Mock.world 500 [Mock.ok_token]) NO_TOKEN (Mock.authenticator None) _ _).
  vm_compute. reflexivity.
Defined.

Lemma obtain_token_refresh_rejected_witness :
  Authenticator.obtain_token
    (Mock.authenticator (Some Mock.refresh_due), Mock.world 500 [Scenario.rejected]) =
    (Raise (S3IError (S3IException.mk
              S3IException.AuthenticationException
              "Could not refresh token from S³I Identity Provider."
              None None (Some 400) (Some "bad request"))),
     (Mock.authenticator (Some Mock.refresh_due),
      answered (grant_request (Mock.authenticator (Some Mock.refresh_due))
                  (refresh_payload Mock.refresh_due))
        [] (ticked (ticked (Mock.world 500 [Scenario.rejected]))))).
Proof.
  apply (obtain_token_refresh_rejected (Mock.authenticator (Some Mock.refresh_due))
           Mock.refresh_due (Mock.world 500 [Scenario.rejected])
           (Response.mk 400 "bad request" []) []);
    first [reflexivity | simpl; lia].
Defined.

Lemma send_posts_message_witness :
  last (World.sent (snd (snd (Broker.send "s3ibs://camera" Scenario.MESSAGE
          (Mock.broker, Mock.world 0 [Mock.ok_token; Scenario.created]))))) =
  Some (Request.mk 0 POST "https://broker.s3i.vswf.dev/s3ibs://camera"
          (<["Authorization" := "Bearer abc"]>
           (<["Content-Type" := "application/json"]> ∅))
          (JsonBody (JDict Scenario.MESSAGE))).
Proof.
  eassert (Htok : Broker.auth_obtain_token
                    (Mock.broker, Mock.world 0 [Mock.ok_token; Scenario.created])
                  = (Return _, (_, _))) by (vm_compute; reflexivity).
  rewrite (send_posts_message _ _ _ _ _ _ _ Htok eq_refl).
  rewrite last_snoc. reflexivity.
Defined.

Lemma receive_gets_queue_witness :
  last (World.sent (snd (snd (Broker.receive true true
          (Mock.broker, Mock.world 0 [Mock.ok_token; Mock.empty_queue]))))) =
  Some (Request.mk 0 GET "https://broker.s3i.vswf.dev/s3ib://id/event/all"
          {[ "Authorization" := "Bearer abc" ]} NoBody).
Proof.
  eassert (Htok : Broker.auth_obtain_token
                    (Mock.broker, Mock.world 0 [Mock.ok_token; Mock.empty_queue])
                  = (Return _, (_, _))) by (vm_compute; reflexivity).
  rewrite (receive_gets_queue _ _ _ _ _ _ _ Htok eq_refl).
  rewrite last_snoc. reflexivity.
Defined.

Lemma token_failure_stops_broker_call_witness :
  fst (Broker.send "s3ibs://camera" Scenario.MESSAGE
         (Mock.broker, Mock.world 0 [Scenario.invalid_client; Scenario.created]))
  = Raise (S3IError (S3IException.mk
             S3IException.InvalidCredentialsException
             "Invalid client credentials."
             None None (Some 401) (Some INVALID_CLIENT_BODY)))
  /\ World.net (snd (snd (Broker.send "s3ibs://camera" Scenario.MESSAGE
         (Mock.broker, Mock.world 0 [Scenario.invalid_client; Scenario.created]))))
     = [Scenario.created].
Proof.
  eassert (Htok : Broker.auth_obtain_token
                    (Mock.broker,
                     Mock.world 0 [Scenario.invalid_client; Scenario.created])
                  = (Raise _, (_, _))) by (vm_compute; reflexivity).
  destruct (token_failure_stops_broker_call false false "s3ibs://camera"
              Scenario.MESSAGE _ _ _ _ _ Htok) as (Hsend & _ & _).
  rewrite Hsend. split; reflexivity.
Defined.

Lemma is_image_message_iff_witness :
  fetch_messages.is_image_message
    (S3IMessage.GetValueReplyBody "s3i:camera" "s3i:3" ["s3i:dash"] "s3i:1"
       Mock.IMAGE_VALUE) = true.
Proof.
  apply (proj2 (is_image_message_iff _)).
  exists "s3i:camera", "s3i:3", ["s3i:dash"], "s3i:1", Mock.IMAGE_VALUE.
  split; reflexivity.
Defined.

Lemma handle_single_message_failure_witness :
  tt = tt /\
  (S3IMessage_model_validate_json Mock.BROKEN_TEXT = Raise (ValidationError "S3IMessage")
   \/ exists sender identifier receivers replyingToMessage value,
        S3IMessage_model_validate_json Mock.BROKEN_TEXT =
          Return (S3IMessage.GetValueReplyBody sender identifier receivers
                    replyingToMessage value)
        /\ value !! "type" = Some (JStr "b64 jpeg")
        /\ ImageValue_model_validate value = Raise (ValidationError "S3IMessage")).
Proof.
  apply (handle_single_message_failure Mock.BROKEN_TEXT tt tt
           (ValidationError "S3IMessage")).
  reflexivity.
Defined.

Lemma handle_single_message_other_witness :
  fetch_messages.handle_single_message Mock.REQUEST_TEXT tt = (Return tt, tt).
Proof.
  apply (handle_single_message_other Mock.REQUEST_TEXT tt
           (S3IMessage.GetValueRequestBody "s3i:camera" "s3i:1" ["s3i:dash"]
              "s3ibs://s3i:camera" "image")); reflexivity.
Defined.

Lemma fetch_s3i_messages_requests_witness :
  match fetch_messages.fetch_s3i_messages 4 Mock.three_messages with
  | Some (_, (b', w')) =>
      same_broker_config Mock.broker b' /\
      forall rq, rq ∈ World.sent w' ->
        rq ∈ World.sent (snd Mock.three_messages) \/ drain_request Mock.broker rq
  | None => False
  end.
Proof.
  destruct (fetch_messages.fetch_s3i_messages 4 Mock.three_messages)
    as [[r [b' w']] |] eqn:Hrun.
  - exact (fetch_s3i_messages_requests 4 Mock.broker _ r b' w' Hrun).
  - vm_compute in Hrun. discriminate.
Defined.

Lemma fetch_s3i_messages_total_witness :
  is_Some (fetch_messages.fetch_s3i_messages 9 Mock.three_messages).
Proof. apply fetch_s3i_messages_total. simpl. lia. Defined.

Lemma obtain_token_s3i_error_class_witness :
  S3IException.isinstance
    (S3IException.mk S3IException.InvalidCredentialsException
       "Invalid client credentials." None None (Some 401) (Some INVALID_CLIENT_BODY))
    S3IException.AuthenticationException = true.
Proof.
  apply (obtain_token_s3i_error_class (Mock.authenticator None)
           (Mock.world 0 [Scenario.invalid_client])).
  reflexivity.
Defined.
